(** * SEC EDGAR warehouse: the ingestion step ([src/ingest/fetch_sec.py])

    A shallow embedding of the pure part of the ingestion script: the
    ticker resolver ([get_ticker_cik_map] and the [chosen] list of [main]),
    the fact normalizer ([normalize_companyfacts]), the submission
    flattening loop of [main] and the NDJSON writer ([write_ndjson]).

    The documents the script works on are what [requests]' [r.json()]
    returns, so the embedding works on a type [json] of parsed JSON values
    and gives the Python operations the script applies to them ([.get],
    [.items()], [len], indexing, iteration, truth value, [str]) with the
    exceptions they raise; a function of the script returns a [result],
    its value or the exception that left it.  Network and file system are
    left out: a fetched document is an argument, a written file is its
    text.  The last part adds [TICKERS] and [main], where the network,
    the local disk and the bucket are functions that tell what a fetch
    returns and whether a write or an upload succeeds.

    Text is [string], one [ascii] per character (a character above 127
    is the Unicode character of that number), and the case mappings are
    the ASCII ones, which is what [str.lower] and [str.upper] do on ASCII
    text; the tickers, taxonomy names and dates of the source data are
    ASCII, and what is stated of upper-cased tickers is stated of ASCII
    tickers ([ascii_text]). *)

From Stdlib Require Import ZArith Ascii String DecimalString DecimalZ DecimalPos.
From stdpp Require Import base option list gmap strings.

Local Open Scope string_scope.
Local Open Scope list_scope.
Local Open Scope nat_scope.

(** ** Exceptions and results *)

Inductive exn : Set :=
| AttributeError
| TypeError
| KeyError
| IndexError.

Inductive result (A : Type) : Type :=
| Ok (a : A)
| Raise (e : exn).
Arguments Ok {A} a.
Arguments Raise {A} e.

#[global] Instance result_ret : MRet result := λ A, @Ok A.
#[global] Instance result_bind : MBind result := λ A B f m,
  match m with
  | Ok a => f a
  | Raise e => Raise e
  end.

(** A [for] loop over a list whose body updates the loop state and may
    raise: the first exception leaves the loop. *)
Fixpoint for_each {A S : Type} (xs : list A) (body : A → S → result S)
    (s : S) : result S :=
  match xs with
  | [] => Ok s
  | x :: xs' => s' ← body x s; for_each xs' body s'
  end.

(** ** Parsed JSON values

    [JFloat] keeps a float as the text Python's [repr] gives for it (the
    shortest literal that reads back as the same float), which is all the
    script can observe of a float: its truth value and its [str].  A JSON
    object is the list of its items in document order, each key once. *)

#[local] Set Warnings "-register-all".
Inductive json : Type :=
| JNull
| JBool (b : bool)
| JInt (n : Z)
| JFloat (repr : string)
| JStr (s : string)
| JArr (xs : list json)
| JObj (items : list (string * json)).
#[local] Set Warnings "+register-all".

#[global] Instance json_inhabited : Inhabited json := populate JNull.

Abbreviation object := (list (string * json)).

(** [d.get(k)] on the items of a dict; [None] when the key is missing. *)
Fixpoint obj_lookup (k : string) (items : object) : option json :=
  match items with
  | [] => None
  | (k', v) :: rest => if String.eqb k k' then Some v else obj_lookup k rest
  end.

(** Python truth value: [None], [False], zero, and the empty string, list
    and dict are false. *)
Definition py_truthy (v : json) : bool :=
  match v with
  | JNull => false
  | JBool b => b
  | JInt n => negb (n =? 0)%Z
  | JFloat r => negb (String.eqb r "0.0" || String.eqb r "-0.0")
  | JStr s => negb (String.eqb s "")
  | JArr xs => match xs with [] => false | _ => true end
  | JObj items => match items with [] => false | _ => true end
  end.

(** [v.get(k, dflt)]: only a dict has the method. *)
Definition py_get_default (v : json) (k : string) (dflt : json) : result json :=
  match v with
  | JObj items => Ok (default dflt (obj_lookup k items))
  | _ => Raise AttributeError
  end.

(** [v.get(k)], with Python's [None] for a missing key. *)
Definition py_get (v : json) (k : string) : result json :=
  py_get_default v k JNull.

(** [v.items()] *)
Definition py_items (v : json) : result object :=
  match v with
  | JObj items => Ok items
  | _ => Raise AttributeError
  end.

(** [v.values()] *)
Definition py_values (v : json) : result (list json) :=
  match v with
  | JObj items => Ok (map snd items)
  | _ => Raise AttributeError
  end.

(** [for x in v]: a list gives its elements, a string its characters, a
    dict its keys; nothing else is iterable. *)
Definition py_iter (v : json) : result (list json) :=
  match v with
  | JArr xs => Ok xs
  | JStr s => Ok (map (λ c, JStr (String c "")) (list_ascii_of_string s))
  | JObj items => Ok (map (λ kv, JStr kv.1) items)
  | _ => Raise TypeError
  end.

(** [len(v)] *)
Definition py_len (v : json) : result nat :=
  match v with
  | JArr xs => Ok (length xs)
  | JStr s => Ok (String.length s)
  | JObj items => Ok (length items)
  | _ => Raise TypeError
  end.

(** [v[k]] for a string key [k]: a missing key of a dict is a [KeyError],
    a list or a string takes no string index, and the rest cannot be
    subscripted. *)
Definition py_getitem (v : json) (k : string) : result json :=
  match v with
  | JObj items =>
      match obj_lookup k items with
      | Some x => Ok x
      | None => Raise KeyError
      end
  | _ => Raise TypeError
  end.

(** [v[i]] for an index [i] of [range(n)] (so [0 <= i]). *)
Definition py_index (v : json) (i : nat) : result json :=
  match v with
  | JArr xs =>
      match xs !! i with
      | Some x => Ok x
      | None => Raise IndexError
      end
  | JStr s =>
      match String.get i s with
      | Some c => Ok (JStr (String c ""))
      | None => Raise IndexError
      end
  | JObj _ => Raise KeyError
  | _ => Raise TypeError
  end.

(** ** Text *)

Definition ascii_lower (c : ascii) : ascii :=
  let n := nat_of_ascii c in
  if Nat.leb 65 n && Nat.leb n 90 then ascii_of_nat (n + 32) else c.

Definition ascii_upper (c : ascii) : ascii :=
  let n := nat_of_ascii c in
  if Nat.leb 97 n && Nat.leb n 122 then ascii_of_nat (n - 32) else c.

(** [s.lower()] and [s.upper()] of ASCII text.  A character above 127 is
    left as it is, which Python does not do for the letters among them;
    statements that depend on it take ASCII text ([ascii_text]). *)
Fixpoint lower (s : string) : string :=
  match s with
  | "" => ""
  | String c s' => String (ascii_lower c) (lower s')
  end.

Fixpoint upper (s : string) : string :=
  match s with
  | "" => ""
  | String c s' => String (ascii_upper c) (upper s')
  end.

(** [s.startswith(p)] *)
Fixpoint starts_with (p s : string) : bool :=
  match p, s with
  | "", _ => true
  | String a p', String b s' => Ascii.eqb a b && starts_with p' s'
  | String _ _, "" => false
  end.

(** [term in s] for strings: [term] occurs in [s] at some position. *)
Fixpoint str_contains (term s : string) : bool :=
  starts_with term s ||
  match s with
  | "" => false
  | String _ s' => str_contains term s'
  end.

(** [x in l] for a list of strings *)
Definition str_in (x : string) (l : list string) : bool :=
  existsb (String.eqb x) l.

(** [str(n)] of an integer: its decimal digits, after a minus sign when it
    is negative. *)
Definition int_str (n : Z) : string := NilZero.string_of_int (Z.to_int n).

(** ['0' * n] *)
Fixpoint zeros (n : nat) : string :=
  match n with
  | O => ""
  | S n' => String "0" (zeros n')
  end.

(** [s.zfill(width)]: zeros go after a leading sign. *)
Definition zfill (width : nat) (s : string) : string :=
  let pad := zeros (width - String.length s) in
  match s with
  | String c rest =>
      if Ascii.eqb c "+" || Ascii.eqb c "-"
      then String c (pad +:+ rest)
      else pad +:+ s
  | "" => pad
  end.

(** ** The fact normalizer: [normalize_companyfacts] *)

(** One output row: the dict literal appended to [rows]. *)
Record Row : Type := mkRow {
  row_cik : string;
  row_ticker : string;
  row_concept : string;
  row_unit : string;
  row_period_end_date : json;
  row_val : json;
  row_accn : json;
  row_fy : json;
  row_fp : json;
  row_form : json;
  row_filed : json
}.

(** The initial value of [concepts]. *)
Definition preferred_concepts : list string :=
  [ "us-gaap:Revenues"; "us-gaap:SalesRevenueNet"; "us-gaap:CostOfRevenue";
    "us-gaap:GrossProfit"; "us-gaap:NetIncomeLoss";
    "us-gaap:EarningsPerShareDiluted" ].

(** [f"{namespace}:{fact}"] *)
Definition concept_name (namespace fact : string) : string :=
  namespace +:+ ":" +:+ fact.

(** The first loop: [available_concepts] is extended with the concepts of
    every namespace whose body is a dict. *)
Definition available_concepts (all_facts : object) : list string :=
  foldl (λ available '(namespace, namespace_facts),
           match namespace_facts with
           | JObj facts => available ++ map (λ kv, concept_name namespace kv.1) facts
           | _ => available
           end) [] all_facts.

(** [any(term in c.lower() for term in terms)] *)
Definition matches_any (terms : list string) (c : string) : bool :=
  existsb (λ term, str_contains term (lower c)) terms.

Definition original_concept_count (available : list string) : nat :=
  length (List.filter (λ c, str_in c available) preferred_concepts).

(** The value of [concepts] after the [if original_concept_count == 0]
    block: the concepts the second loop keeps. *)
Definition effective_concepts (available : list string) : list string :=
  if (original_concept_count available =? 0)%nat then
    let revenue_concepts := List.filter (matches_any ["revenue"; "sales"]) available in
    let income_concepts := List.filter (matches_any ["income"; "earnings"]) available in
    let concepts := take 2 revenue_concepts ++ take 2 income_concepts in
    match concepts with
    | [] => take 5 available
    | _ => concepts
    end
  else preferred_concepts.

(** The body of [for ob in arr]. *)
Definition observation_step (cik ticker concept unit : string) (ob : json)
    (rows : list Row) : result (list Row) :=
  e ← py_get ob "end";
  end_ ← (if py_truthy e then Ok e else py_get ob "fy");
  if negb (py_truthy end_) then Ok rows else
  val ← py_get ob "val";
  accn ← py_get ob "accn";
  fy ← py_get ob "fy";
  fp ← py_get ob "fp";
  form ← py_get ob "form";
  filed ← py_get ob "filed";
  Ok (rows ++ [mkRow cik ticker concept unit end_ val accn fy fp form filed]).

(** The body of [for unit, arr in body.get("units", {}).items()]. *)
Definition unit_step (cik ticker concept : string) (item : string * json)
    (rows : list Row) : result (list Row) :=
  let '(unit, arr) := item in
  obs ← py_iter arr;
  for_each obs (observation_step cik ticker concept unit) rows.

(** The body of [for fact_name, body in namespace_facts.items()]. *)
Definition fact_step (cik ticker : string) (concepts : list string)
    (namespace : string) (item : string * json) (rows : list Row)
    : result (list Row) :=
  let '(fact_name, body) := item in
  let concept := concept_name namespace fact_name in
  if negb (str_in concept concepts) then Ok rows else
  units ← py_get_default body "units" (JObj []);
  unit_items ← py_items units;
  for_each unit_items (unit_step cik ticker concept) rows.

(** The body of the second [for namespace, namespace_facts in
    all_facts.items()]. *)
Definition namespace_step (cik ticker : string) (concepts : list string)
    (item : string * json) (rows : list Row) : result (list Row) :=
  let '(namespace, namespace_facts) := item in
  match namespace_facts with
  | JObj facts => for_each facts (fact_step cik ticker concepts namespace) rows
  | _ => Ok rows
  end.

Definition normalize_companyfacts (cik ticker : string) (facts : json)
    : result (list Row) :=
  all_facts ← py_get_default facts "facts" (JObj []);
  if negb (py_truthy all_facts) then Ok [] else
  ns_items ← py_items all_facts;
  let concepts := effective_concepts (available_concepts ns_items) in
  for_each ns_items (namespace_step cik ticker concepts) [].

(** The document of [test_normalize_companyfacts_with_data]. *)
Definition revenues_observation : object :=
  [("end", JStr "2023-12-31"); ("val", JInt 1000000); ("accn", JStr "123456");
   ("fy", JInt 2023); ("fp", JStr "FY")].

Definition revenues_namespaces : object :=
  [("us-gaap", JObj [("Revenues", JObj [("units",
      JObj [("USD", JArr [JObj revenues_observation])])])])].

Definition facts_data : json := JObj [("facts", JObj revenues_namespaces)].

(** A filer that reports under another taxonomy: none of the preferred
    concepts, and an observation that has a fiscal year but no period-end
    date, and one that has neither. *)
Definition ifrs_namespaces : object :=
  [("dei", JStr "n/a");
   ("ifrs-full", JObj [
      ("Revenue", JObj [("units", JObj [("EUR", JArr [
          JObj [("fy", JInt 2022); ("val", JInt 500)];
          JObj [("val", JInt 7)]])])]);
      ("ProfitLoss", JObj [("units", JObj [("EUR", JArr [
          JObj [("end", JStr "2022-12-31"); ("val", JInt 40)]])])]);
      ("IncomeTaxExpense", JObj [("units", JObj [("EUR", JArr [
          JObj [("end", JStr "2022-12-31"); ("val", JInt 9)]])])])])].

Definition ifrs_facts : json :=
  JObj [("cik", JInt 1234); ("facts", JObj ifrs_namespaces)].

(** ** The ticker resolver: [get_ticker_cik_map] and [chosen] *)

Definition hex_digit (n : nat) : ascii :=
  ascii_of_nat (if Nat.ltb n 10 then 48 + n else 87 + n).

(** One character of [repr(s)] inside the quote [q]. *)
Definition repr_char (q c : ascii) : string :=
  let n := nat_of_ascii c in
  if Ascii.eqb c q || Ascii.eqb c "\" then String "\" (String c "")
  else if Nat.eqb n 9 then "\t"
  else if Nat.eqb n 10 then "\n"
  else if Nat.eqb n 13 then "\r"
  else if Nat.ltb n 32 || Nat.eqb n 127
       then String "\" (String "x" (String (hex_digit (n / 16)) (String (hex_digit (n mod 16)) "")))
  else String c "".

Fixpoint repr_chars (q : ascii) (s : string) : string :=
  match s with
  | "" => ""
  | String c s' => repr_char q c +:+ repr_chars q s'
  end.

Definition has_char (c : ascii) (s : string) : bool :=
  existsb (Ascii.eqb c) (list_ascii_of_string s).

(** [repr(s)] of a string: single quotes, unless the text has a single
    quote and no double quote. *)
Definition str_repr (s : string) : string :=
  let dq := ascii_of_nat 34 in
  let sq := ascii_of_nat 39 in
  let q := if has_char sq s && negb (has_char dq s) then dq else sq in
  String q (repr_chars q s +:+ String q "").

(** [", ".join(parts)] *)
Fixpoint join_comma (parts : list string) : string :=
  match parts with
  | [] => ""
  | [p] => p
  | p :: rest => p +:+ ", " +:+ join_comma rest
  end.

(** [repr(v)] *)
Fixpoint py_repr (v : json) : string :=
  match v with
  | JNull => "None"
  | JBool b => if b then "True" else "False"
  | JInt n => int_str n
  | JFloat r => r
  | JStr s => str_repr s
  | JArr xs => "[" +:+ join_comma (map py_repr xs) +:+ "]"
  | JObj items =>
      "{" +:+ join_comma (map (λ '(k, x), str_repr k +:+ ": " +:+ py_repr x) items) +:+ "}"
  end.

(** [str(v)] *)
Definition py_str (v : json) : string :=
  match v with
  | JStr s => s
  | _ => py_repr v
  end.

(** [v.upper()]: only a string has the method. *)
Definition py_upper (v : json) : result string :=
  match v with
  | JStr s => Ok (upper s)
  | _ => Raise AttributeError
  end.

(** One item of the dict comprehension: the key is evaluated before the
    value, and a key already there gets the new value. *)
Definition resolver_step (v : json) (t2c : gmap string string)
    : result (gmap string string) :=
  ticker ← py_getitem v "ticker";
  key ← py_upper ticker;
  cik_str ← py_getitem v "cik_str";
  Ok (<[key := zfill 10 (py_str cik_str)]> t2c).

(** [data] is the document [fetch_json(url)] returned. *)
Definition get_ticker_cik_map (data : json) : result (gmap string string) :=
  values ← py_values data;
  for_each values resolver_step ∅.

(** [t2c[t]] *)
Definition dict_getitem (t2c : gmap string string) (t : string) : result string :=
  match t2c !! t with
  | Some cik => Ok cik
  | None => Raise KeyError
  end.

(** [chosen = [(t, t2c[t]) for t in TICKERS if t in t2c]] *)
Definition chosen (TICKERS : list string) (t2c : gmap string string)
    : result (list (string * string)) :=
  for_each TICKERS
    (λ t acc,
       if bool_decide (is_Some (t2c !! t))
       then cik ← dict_getitem t2c t; Ok (acc ++ [(t, cik)])
       else Ok acc) [].

(** The table of [test_get_ticker_cik_map]. *)
Definition mock_response : json :=
  JObj [("0", JObj [("cik_str", JInt 320193); ("ticker", JStr "AAPL");
                    ("title", JStr "Apple Inc.")]);
        ("1", JObj [("cik_str", JInt 789019); ("ticker", JStr "MSFT");
                    ("title", JStr "Microsoft Corp")])].

(** ** The submission flattening loop of [main] *)

Record SubRow : Type := mkSubRow {
  sub_cik : string;
  sub_ticker : string;
  sub_company_name : json;
  sub_accession_no : json;
  sub_form : json;
  sub_filed : json;
  sub_report_period : json
}.

(** [rec[k][i]] *)
Definition rec_at (rec : json) (k : string) (i : nat) : result json :=
  arr ← py_getitem rec k;
  py_index arr i.

(** The body of [for i in range(...)]: the values of the dict literal are
    evaluated in the order they are written. *)
Definition submission_step (cik t : string) (company rec : json) (i : nat)
    (all_sub : list SubRow) : result (list SubRow) :=
  accession_no ← rec_at rec "accessionNumber" i;
  form ← rec_at rec "form" i;
  filed ← rec_at rec "filingDate" i;
  report_period ← rec_at rec "reportDate" i;
  Ok (all_sub ++ [mkSubRow (zfill 10 cik) t company accession_no form filed report_period]).

(** Lines 99 to 110 of [main], for the company [(t, cik)] whose submissions
    document is [subs]. *)
Definition flatten_submissions (cik t : string) (subs : json)
    (all_sub : list SubRow) : result (list SubRow) :=
  company ← py_get_default subs "companyName" (JStr "");
  filings ← py_get_default subs "filings" (JObj []);
  rec ← py_get_default filings "recent" (JObj []);
  accession_numbers ← py_get_default rec "accessionNumber" (JArr []);
  n ← py_len accession_numbers;
  for_each (seq 0 n) (submission_step cik t company rec) all_sub.

Definition recent_filings : json :=
  JObj [("companyName", JStr "Apple Inc.");
        ("filings", JObj [("recent", JObj [
           ("accessionNumber", JArr [JStr "0000320193-24-000001"; JStr "0000320193-24-000002"]);
           ("form", JArr [JStr "10-K"; JStr "10-Q"]);
           ("filingDate", JArr [JStr "2024-01-02"; JStr "2024-04-02"]);
           ("reportDate", JArr [JStr "2023-12-31"; JStr "2024-03-31"])])])].


(** ** The NDJSON writer: [write_ndjson]

    [json.dumps] is Python's, called with its defaults: [ensure_ascii] is
    on, so every character outside the printable ASCII range is written
    as an escape, and the separators are [", "] and [": "]. *)

Definition newline : ascii := ascii_of_nat 10.
Definition double_quote : ascii := ascii_of_nat 34.

(** The escape of one character inside a JSON string. *)
Definition json_escape_char (c : ascii) : string :=
  let n := nat_of_ascii c in
  if Ascii.eqb c double_quote then String "\" (String double_quote "")
  else if Ascii.eqb c "\" then "\\"
  else if Nat.eqb n 8 then "\b"
  else if Nat.eqb n 9 then "\t"
  else if Nat.eqb n 10 then "\n"
  else if Nat.eqb n 12 then "\f"
  else if Nat.eqb n 13 then "\r"
  else if Nat.ltb n 32 || Nat.ltb 126 n
       then "\u00" +:+ String (hex_digit (n / 16)) (String (hex_digit (n mod 16)) "")
  else String c "".

Fixpoint json_escape (s : string) : string :=
  match s with
  | "" => ""
  | String c s' => json_escape_char c +:+ json_escape s'
  end.

Definition json_quote (s : string) : string :=
  String double_quote (json_escape s +:+ String double_quote "").

(** A float is written as its [repr], except the three values JSON has no
    literal for. *)
Definition json_float (r : string) : string :=
  if String.eqb r "nan" then "NaN"
  else if String.eqb r "inf" then "Infinity"
  else if String.eqb r "-inf" then "-Infinity"
  else r.

(** [json.dumps(v)] *)
Fixpoint json_dumps (v : json) : string :=
  match v with
  | JNull => "null"
  | JBool b => if b then "true" else "false"
  | JInt n => int_str n
  | JFloat r => json_float r
  | JStr s => json_quote s
  | JArr xs => "[" +:+ join_comma (map json_dumps xs) +:+ "]"
  | JObj items =>
      "{" +:+ join_comma (map (λ '(k, x), json_quote k +:+ ": " +:+ json_dumps x) items) +:+ "}"
  end.

(** The dict a [Row] stands for, keys in the order of the literal. *)
Definition row_json (r : Row) : json :=
  JObj [("cik", JStr (row_cik r)); ("ticker", JStr (row_ticker r));
        ("concept", JStr (row_concept r)); ("unit", JStr (row_unit r));
        ("period_end_date", row_period_end_date r); ("val", row_val r);
        ("accn", row_accn r); ("fy", row_fy r); ("fp", row_fp r);
        ("form", row_form r); ("filed", row_filed r)].

Definition sub_row_json (r : SubRow) : json :=
  JObj [("cik", JStr (sub_cik r)); ("ticker", JStr (sub_ticker r));
        ("company_name", sub_company_name r);
        ("accession_no", sub_accession_no r); ("form", sub_form r);
        ("filed", sub_filed r); ("report_period", sub_report_period r)].

(** The text of the file after [write_ndjson(path, rows)]: the file is
    opened for writing, so it holds what the loop wrote and nothing else. *)
Definition write_ndjson (rows : list json) : string :=
  foldl (λ f r, f +:+ (json_dumps r +:+ String newline "")) "" rows.

(** Modelled from the spec: the repository has no reader of the file (the
    warehouse load job reads it), so reading it back line by line is
    taken from the spec's round trip.  A line ends at a newline, and what
    follows the last newline is a line only when it is not empty. [cur] is
    the part of the current line read so far. *)
Fixpoint split_lines (cur text : string) : list string :=
  match text with
  | "" => match cur with "" => [] | _ => [cur] end
  | String c rest =>
      if Ascii.eqb c newline then cur :: split_lines "" rest
      else split_lines (cur +:+ String c "") rest
  end.


(** [JFloat] holds the text of a float: digits, sign, point, exponent, or
    one of [inf], [nan]. *)
Definition float_char (c : ascii) : bool := has_char c "0123456789+-.einfa".

Definition float_text (r : string) : bool :=
  forallb float_char (list_ascii_of_string r).

Fixpoint json_wf (v : json) : bool :=
  match v with
  | JFloat r => float_text r
  | JArr xs => forallb json_wf xs
  | JObj items => forallb (λ '(_, x), json_wf x) items
  | _ => true
  end.

(** Rows to write and read back: two fact rows, one with a newline in a
    text field, and a submission row. *)
Definition sample_rows : list json :=
  [ row_json (mkRow "0000320193" "AAPL" "us-gaap:Revenues" "USD" (JStr "2023-12-31")
                (JInt 1000000) (JStr "123456") (JInt 2023) (JStr "FY") JNull JNull);
    row_json (mkRow "0000320193" "AAPL" "us-gaap:EarningsPerShareDiluted" "USD/shares"
                (JInt 2023) (JFloat "6.13") JNull (JInt 2023) JNull
                (JStr (String "1" (String "0" (String newline "K")))) JNull);
    sub_row_json (mkSubRow "0000320193" "AAPL" (JStr "Apple Inc.")
                    (JStr "0000320193-24-000001") (JStr "10-K") (JStr "2024-01-02")
                    (JStr "2023-12-31")) ].

(** ** Reading a line back

    Modelled from the spec: the parser of the spec's round trip, for the
    documents [json.dumps] writes.  Numbers are kept the way [json] has
    them: a token that reads as an integer is one, any other number token
    is the text of a float, and [NaN], [Infinity] and [-Infinity] are read
    as the floats they were written for, as [json.loads] reads them. *)

(** The characters of a number token. *)
Definition number_char (c : ascii) : bool := has_char c "0123456789+-.e".

(** The longest prefix of [s] made of characters of [p], and what follows. *)
Fixpoint span_chars (p : ascii → bool) (s : string) : string * string :=
  match s with
  | "" => ("", "")
  | String c s' =>
      if p c then let '(token, rest) := span_chars p s' in (String c token, rest)
      else ("", s)
  end.

(** A number token is an integer when it reads as one, a float otherwise. *)
Definition parse_number (s : string) : option (json * string) :=
  let '(token, rest) := span_chars number_char s in
  match NilZero.int_of_string token with
  | Some d => Some (JInt (Z.of_int d), rest)
  | None =>
      match token with
      | "" => None
      | _ => Some (JFloat token, rest)
      end
  end.

(** [s] without its prefix [p]. *)
Fixpoint strip_prefix (p s : string) : option string :=
  match p, s with
  | "", _ => Some s
  | String a p', String b s' => if Ascii.eqb a b then strip_prefix p' s' else None
  | String _ _, "" => None
  end.

Definition hex_value (c : ascii) : option nat :=
  let n := nat_of_ascii c in
  if Nat.leb 48 n && Nat.leb n 57 then Some (n - 48)
  else if Nat.leb 97 n && Nat.leb n 102 then Some (n - 87)
  else None.

(** The character a one-letter escape stands for. *)
Definition unescape (e : ascii) : option ascii :=
  if Ascii.eqb e double_quote then Some double_quote
  else if Ascii.eqb e "\" then Some "\"%char
  else if Ascii.eqb e "b" then Some (ascii_of_nat 8)
  else if Ascii.eqb e "t" then Some (ascii_of_nat 9)
  else if Ascii.eqb e "n" then Some (ascii_of_nat 10)
  else if Ascii.eqb e "f" then Some (ascii_of_nat 12)
  else if Ascii.eqb e "r" then Some (ascii_of_nat 13)
  else None.

(** The text of a JSON string, read from after its opening quote to its
    closing quote. *)
Fixpoint parse_string (s : string) : option (string * string) :=
  match s with
  | "" => None
  | String c rest =>
      if Ascii.eqb c double_quote then Some ("", rest)
      else if Ascii.eqb c "\" then
        match rest with
        | String e rest' =>
            if Ascii.eqb e "u" then
              match rest' with
              | String h1 (String h2 (String h3 (String h4 rest''))) =>
                  match hex_value h1, hex_value h2, hex_value h3, hex_value h4 with
                  | Some 0, Some 0, Some a, Some b =>
                      '(text, r) ← parse_string rest'';
                      Some (String (ascii_of_nat (16 * a + b)) text, r)
                  | _, _, _, _ => None
                  end
              | _ => None
              end
            else
              ch ← unescape e;
              '(text, r) ← parse_string rest';
              Some (String ch text, r)
        | "" => None
        end
      else
        '(text, r) ← parse_string rest;
        Some (String c text, r)
  end.

Definition starts_with_char (c : ascii) (s : string) : bool :=
  match s with
  | String c' _ => Ascii.eqb c c'
  | "" => false
  end.

Definition tail_string (s : string) : string :=
  match s with
  | String _ s' => s'
  | "" => ""
  end.

(** A value, the elements of a list after its opening bracket, and the
    members of a dict after its opening brace; [fuel] bounds the number of
    nested calls and the length of the text is always enough. *)
Fixpoint parse_value (fuel : nat) (s : string) {struct fuel} : option (json * string) :=
  match fuel with
  | 0 => None
  | S fuel' =>
      match s with
      | "" => None
      | String c rest =>
          if Ascii.eqb c "n" then r ← strip_prefix "ull" rest; Some (JNull, r)
          else if Ascii.eqb c "t" then r ← strip_prefix "rue" rest; Some (JBool true, r)
          else if Ascii.eqb c "f" then r ← strip_prefix "alse" rest; Some (JBool false, r)
          else if Ascii.eqb c double_quote then
            '(text, r) ← parse_string rest; Some (JStr text, r)
          else if Ascii.eqb c "[" then
            if starts_with_char "]" rest then Some (JArr [], tail_string rest)
            else '(xs, r) ← parse_elements fuel' rest; Some (JArr xs, r)
          else if Ascii.eqb c "{" then
            if starts_with_char "}" rest then Some (JObj [], tail_string rest)
            else '(items, r) ← parse_members fuel' rest; Some (JObj items, r)
          else if Ascii.eqb c "N" then r ← strip_prefix "aN" rest; Some (JFloat "nan", r)
          else if Ascii.eqb c "I" then
            r ← strip_prefix "nfinity" rest; Some (JFloat "inf", r)
          else if Ascii.eqb c "-" && starts_with_char "I" rest then
            r ← strip_prefix "Infinity" rest; Some (JFloat "-inf", r)
          else parse_number s
      end
  end
with parse_elements (fuel : nat) (s : string) {struct fuel}
    : option (list json * string) :=
  match fuel with
  | 0 => None
  | S fuel' =>
      '(x, rest) ← parse_value fuel' s;
      if starts_with_char "]" rest then Some ([x], tail_string rest)
      else
        rest' ← strip_prefix ", " rest;
        '(xs, r) ← parse_elements fuel' rest';
        Some (x :: xs, r)
  end
with parse_members (fuel : nat) (s : string) {struct fuel}
    : option (list (string * json) * string) :=
  match fuel with
  | 0 => None
  | S fuel' =>
      after_quote ← strip_prefix (String double_quote "") s;
      '(k, rest) ← parse_string after_quote;
      rest' ← strip_prefix ": " rest;
      '(x, rest'') ← parse_value fuel' rest';
      if starts_with_char "}" rest'' then Some ([(k, x)], tail_string rest'')
      else
        rest''' ← strip_prefix ", " rest'';
        '(items, r) ← parse_members fuel' rest''';
        Some ((k, x) :: items, r)
  end.

(** [json.loads(line)] for a line that holds one document and nothing
    else. *)
Definition json_loads (line : string) : option json :=
  match parse_value (S (String.length line)) line with
  | Some (v, "") => Some v
  | _ => None
  end.

(** The floats a line gives back as they were: the text is a number token
    that does not read as an integer. *)
Definition float_canonical (r : string) : bool :=
  forallb number_char (list_ascii_of_string r) &&
  negb (String.eqb r "") &&
  match NilZero.int_of_string r with Some _ => false | None => true end.

Fixpoint json_canonical (v : json) : bool :=
  match v with
  | JFloat r => float_canonical r
  | JArr xs => forallb json_canonical xs
  | JObj items => forallb (λ '(_, x), json_canonical x) items
  | _ => true
  end.

(** The text of a float: one of the three values JSON has no literal for,
    or a number token that does not read as an integer, which the [repr]
    of every finite float is (it has a point or an exponent). *)
Definition float_repr (r : string) : bool :=
  String.eqb r "nan" || String.eqb r "inf" || String.eqb r "-inf" || float_canonical r.

Fixpoint json_repr (v : json) : bool :=
  match v with
  | JFloat r => float_repr r
  | JArr xs => forallb json_repr xs
  | JObj items => forallb (λ '(_, x), json_repr x) items
  | _ => true
  end.





(** ** Notions the statements use *)

(** [c] contains [term] up to case: some piece of [c] lower-cases to it. *)
Definition ci_contains (term c : string) : Prop :=
  ∃ pre w suf, c = pre +:+ w +:+ suf ∧ lower w = term.

(** The concepts one namespace offers: none unless its body is a dict. *)
Definition namespace_concepts (item : string * json) : list string :=
  match item.2 with
  | JObj facts => map (λ kv, concept_name item.1 kv.1) facts
  | _ => []
  end.

Definition is_dict (v : json) : bool :=
  match v with JObj _ => true | _ => false end.

(** [o.get(k)] of an observation dict. *)
Definition field (o : object) (k : string) : json :=
  default JNull (obj_lookup k o).

(** The period marker of an observation: its period-end date when that is
    not empty, else its fiscal year when that is not empty. *)
Definition period_marker (o : object) : option json :=
  if py_truthy (field o "end") then Some (field o "end")
  else if py_truthy (field o "fy") then Some (field o "fy")
  else None.

(** The row of an observation with period marker [p]. *)
Definition fact_row (cik ticker concept unit : string) (o : object) (p : json) : Row :=
  mkRow cik ticker concept unit p (field o "val") (field o "accn")
    (field o "fy") (field o "fp") (field o "form") (field o "filed").

(** What one observation adds to the output. *)
Definition observation_rows (cik ticker : string) (sel : string * string * json)
    : list Row :=
  let '(concept, unit, ob) := sel in
  match ob with
  | JObj o =>
      match period_marker o with
      | Some p => [fact_row cik ticker concept unit o p]
      | None => []
      end
  | _ => []
  end.

(** The observations of the document that belong to a concept of
    [concepts], each with its concept and unit, in document order. *)
Definition unit_observations (concept : string) (item : string * json)
    : list (string * string * json) :=
  match item.2 with
  | JArr obs => map (λ ob, (concept, item.1, ob)) obs
  | _ => []
  end.

Definition body_units (body : json) : object :=
  match body with
  | JObj b => match obj_lookup "units" b with Some (JObj units) => units | _ => [] end
  | _ => []
  end.

Definition fact_observations (concepts : list string) (namespace : string)
    (item : string * json) : list (string * string * json) :=
  let concept := concept_name namespace item.1 in
  if str_in concept concepts
  then flat_map (unit_observations concept) (body_units item.2)
  else [].

Definition namespace_observations (concepts : list string) (item : string * json)
    : list (string * string * json) :=
  match item.2 with
  | JObj facts => flat_map (fact_observations concepts item.1) facts
  | _ => []
  end.

Definition selected_observations (concepts : list string) (all_facts : object)
    : list (string * string * json) :=
  flat_map (namespace_observations concepts) all_facts.

(** A document has the shape of the data model where [concepts] looks:
    the body of every concept of [concepts] is a dict whose ["units"], if
    there, is a dict from units to lists of observation dicts. *)
Definition shaped_unit (item : string * json) : bool :=
  match item.2 with
  | JArr obs => forallb is_dict obs
  | _ => false
  end.

Definition shaped_body (body : json) : bool :=
  match body with
  | JObj b =>
      match obj_lookup "units" b with
      | None => true
      | Some (JObj units) => forallb shaped_unit units
      | Some _ => false
      end
  | _ => false
  end.

Definition shaped_fact (concepts : list string) (namespace : string)
    (item : string * json) : bool :=
  negb (str_in (concept_name namespace item.1) concepts) || shaped_body item.2.

Definition shaped_namespace (concepts : list string) (item : string * json) : bool :=
  match item.2 with
  | JObj facts => forallb (shaped_fact concepts item.1) facts
  | _ => true
  end.

Definition shaped_facts (concepts : list string) (all_facts : object) : bool :=
  forallb (shaped_namespace concepts) all_facts.

(** The rows carry concepts of [concepts] that the document offers. *)
Definition kept (concepts : list string) (all_facts : object) (rows : list Row) : Prop :=
  Forall (λ r, row_concept r ∈ concepts ∧ row_concept r ∈ available_concepts all_facts) rows.

(** What may follow a value: the end of the text, or a character that
    neither is part of a number nor turns a minus sign into [-Infinity]. *)
Definition delimited (r : string) : bool :=
  match r with
  | "" => true
  | String c _ => negb (number_char c) && negb (Ascii.eqb c "I")
  end.

(** [v] reads back: its text, followed by anything that ends a value, is
    parsed as [v], with what followed left over. *)
Definition reads_back (v : json) : Prop :=
  ∀ fuel r,
    String.length (json_dumps v) ≤ fuel → delimited r = true →
    parse_value fuel (json_dumps v +:+ r) = Some (v, r).

Definition member_text (kv : string * json) : string :=
  let '(k, x) := kv in json_quote k +:+ ": " +:+ json_dumps x.

(** The ticker and raw identifier of a well-formed entry of the ticker
    table. *)
Definition entry_fields (v : json) : option (string * json) :=
  match v with
  | JObj o =>
      match obj_lookup "ticker" o, obj_lookup "cik_str" o with
      | Some (JStr t), Some c => Some (t, c)
      | _, _ => None
      end
  | _ => None
  end.

(** The key an entry is stored under, if it is well formed. *)
Definition entry_key (v : json) : option string :=
  (λ tc, upper tc.1) <$> entry_fields v.

(** Text of ASCII characters only.  On such text [upper] is [str.upper];
    Python also maps the letters outside ASCII (and the sharp s to two
    letters), so what is stated of upper-cased tickers is stated of ASCII
    tickers. *)
Definition ascii_text (s : string) : bool :=
  forallb (λ c, Nat.ltb (nat_of_ascii c) 128) (list_ascii_of_string s).

(** An entry whose ticker, when it is a string, is ASCII text. *)
Definition ascii_ticker (v : json) : bool :=
  match v with
  | JObj o =>
      match obj_lookup "ticker" o with
      | Some (JStr t) => ascii_text t
      | _ => true
      end
  | _ => true
  end.

(** A table whose entries have ASCII tickers. *)
Definition ascii_table (data : json) : bool :=
  match data with
  | JObj items => forallb (λ kv, ascii_ticker kv.2) items
  | _ => true
  end.

(** What the comprehension of [get_ticker_cik_map] builds from well-formed
    entries, starting from [t2c]. *)
Definition resolved (values : list json) (t2c : gmap string string)
    : gmap string string :=
  foldl (λ m v,
           match entry_fields v with
           | Some (t, c) => <[upper t := zfill 10 (py_str c)]> m
           | None => m
           end) t2c values.

(** [s] left-padded with zeros to [width]. *)
Definition left_pad (width : nat) (s : string) : string :=
  zeros (width - String.length s) +:+ s.

(** A submissions document without the recent-filings block. *)
Definition no_recent_filings : json :=
  JObj [("cik", JStr "320193"); ("companyName", JStr "Apple Inc.");
        ("filings", JObj [("files", JArr [])])].

(** A table with one ticker twice, under two identifiers. *)
Definition duplicate_table : json :=
  JObj [("0", JObj [("cik_str", JInt 1); ("ticker", JStr "ACME"); ("title", JStr "Acme Corp")]);
        ("1", JObj [("cik_str", JInt 2); ("ticker", JStr "ACME"); ("title", JStr "Acme Inc")])].

(** * Failures, configuration and the run *)

(** ** What makes the walk raise *)

(** The exception of the first element that has one. *)
Fixpoint first_failure {A : Type} (fail : A → option exn) (xs : list A) : option exn :=
  match xs with
  | [] => None
  | x :: xs' =>
      match fail x with
      | Some e => Some e
      | None => first_failure fail xs'
      end
  end.

(** An observation must be a dict. *)
Definition observation_failure (ob : json) : option exn :=
  if is_dict ob then None else Some AttributeError.

(** The value of a unit must be iterable, and what it yields must be
    dicts: a list of dicts, or an empty string or dict. *)
Definition unit_failure (item : string * json) : option exn :=
  match item.2 with
  | JArr obs => first_failure observation_failure obs
  | JStr s => match s with "" => None | _ => Some AttributeError end
  | JObj items => match items with [] => None | _ => Some AttributeError end
  | _ => Some TypeError
  end.

(** The body of a concept must be a dict, and its ["units"], if there, a
    dict of units. *)
Definition body_failure (body : json) : option exn :=
  match body with
  | JObj b =>
      match obj_lookup "units" b with
      | None => None
      | Some (JObj units) => first_failure unit_failure units
      | Some _ => Some AttributeError
      end
  | _ => Some AttributeError
  end.

(** Only the concepts of [concepts] are looked into. *)
Definition fact_failure (concepts : list string) (namespace : string)
    (item : string * json) : option exn :=
  if str_in (concept_name namespace item.1) concepts then body_failure item.2 else None.

Definition namespace_failure (concepts : list string) (item : string * json)
    : option exn :=
  match item.2 with
  | JObj facts => first_failure (fact_failure concepts item.1) facts
  | _ => None
  end.

Definition document_failure (concepts : list string) (all_facts : object) : option exn :=
  first_failure (namespace_failure concepts) all_facts.

(** A document whose second concept has a list where its body should be,
    after a well-formed first one. *)
Definition broken_namespaces : object :=
  [("us-gaap", JObj [
      ("Revenues", JObj [("units", JObj [("USD", JArr [
          JObj [("end", JStr "2023-12-31"); ("val", JInt 10)]])])]);
      ("Assets", JNull);
      ("NetIncomeLoss", JObj [("units", JObj [("USD", JInt 5)])]);
      ("GrossProfit", JArr [])])].

(** ** What makes the resolver raise *)

(** An entry must be a dict with a string under ["ticker"] and something
    under ["cik_str"]. *)
Definition entry_failure (v : json) : option exn :=
  match v with
  | JObj o =>
      match obj_lookup "ticker" o with
      | None => Some KeyError
      | Some (JStr _) =>
          match obj_lookup "cik_str" o with
          | None => Some KeyError
          | Some _ => None
          end
      | Some _ => Some AttributeError
      end
  | _ => Some TypeError
  end.

(** ** The rows of the submission flattening *)

(** The row of index [i] of the four parallel lists. *)
Definition submission_row (cik t : string) (company : json)
    (accs forms dates reports : list json) (i : nat) : SubRow :=
  mkSubRow (zfill 10 cik) t company (accs !!! i) (forms !!! i) (dates !!! i)
    (reports !!! i).

(** A recent-filings block whose report dates stop one filing early. *)
Definition short_report_dates : json :=
  JObj [("filings", JObj [("recent", JObj [
     ("accessionNumber", JArr [JStr "0000320193-24-000001"; JStr "0000320193-24-000002"]);
     ("form", JArr [JStr "10-K"; JStr "10-Q"]);
     ("filingDate", JArr [JStr "2024-01-02"; JStr "2024-04-02"; JStr "2024-07-02"]);
     ("reportDate", JArr [JStr "2023-12-31"])])])].

(** A recent-filings block without the list of filing dates. *)
Definition no_filing_dates : json :=
  JObj [("companyName", JStr "Apple Inc.");
        ("filings", JObj [("recent", JObj [
           ("accessionNumber", JArr [JStr "0000320193-24-000001"]);
           ("form", JArr [JStr "10-K"]);
           ("reportDate", JArr [JStr "2023-12-31"])])])].

(** ** The characters of the file *)

(** The printable ASCII characters, space to tilde. *)
Definition printable (c : ascii) : bool :=
  let n := nat_of_ascii c in Nat.leb 32 n && Nat.leb n 126.

Definition all_chars (p : ascii → bool) (s : string) : bool :=
  forallb p (list_ascii_of_string s).

(** ** The configured tickers: [TICKERS] *)

(** The characters [str.strip] removes: tab to carriage return, the four
    separators before the space, the space, and the two blanks above
    ASCII, next line (133) and the no-break space (160). *)
Definition is_space (c : ascii) : bool :=
  let n := nat_of_ascii c in
  (Nat.leb 9 n && Nat.leb n 13) || (Nat.leb 28 n && Nat.leb n 32) ||
  Nat.eqb n 133 || Nat.eqb n 160.

Fixpoint lstrip (s : string) : string :=
  match s with
  | "" => ""
  | String c s' => if is_space c then lstrip s' else s
  end.

Fixpoint rstrip (s : string) : string :=
  match s with
  | "" => ""
  | String c s' =>
      match rstrip s' with
      | "" => if is_space c then "" else String c ""
      | r => String c r
      end
  end.

(** [s.strip()] *)
Definition strip (s : string) : string := rstrip (lstrip s).

(** [s.split(sep)] for a one-character separator; [cur] is the piece read
    so far. The result is never empty: a text without the separator is one
    piece. *)
Fixpoint split_on (sep : ascii) (cur s : string) : list string :=
  match s with
  | "" => [cur]
  | String c s' =>
      if Ascii.eqb c sep then cur :: split_on sep "" s'
      else split_on sep (cur +:+ String c "") s'
  end.

(** [[t.strip().upper() for t in os.getenv("TICKERS","AAPL,MSFT").split(",")]],
    for the value [env] of the variable, [None] when it is not set. *)
Definition parse_tickers (env : option string) : list string :=
  map (λ t, upper (strip t)) (split_on "," "" (default "AAPL,MSFT" env)).

(** The number of occurrences of [c] in [s]. *)
Fixpoint count_char (c : ascii) (s : string) : nat :=
  match s with
  | "" => 0
  | String c' s' => (if Ascii.eqb c' c then 1 else 0) + count_char c s'
  end.

(** ** The run: [main]

    A run makes its uploads in order and ends, after the last one or at
    the first failure.  The world around it is three functions.  [fetch]
    is the network: the parsed document of a URL, or nothing when
    [fetch_json] raises (no connection, an error status, a body that is
    not JSON).  [disk] tells of a local path whether [write_ndjson] can
    write the file there (make the directory, open, write).  [gcs] tells
    of an upload whether [upload_to_gcs] succeeds; one that fails leaves
    no object in the bucket.  The progress messages and the pause between
    two companies are left out. *)
Inductive failure : Type :=
  | AssertionError
  | FetchError (url : string)
  | PyError (e : exn)
  | WriteError (path : string)
  | UploadError (dest : string).

Inductive run (A : Type) : Type :=
  | Finished (a : A)
  | Aborted (f : failure).
Arguments Finished {A} a.
Arguments Aborted {A} f.

#[export] Instance run_ret : MRet run := λ A a, Finished a.
#[export] Instance run_bind : MBind run := λ A B k m,
  match m with
  | Finished a => k a
  | Aborted f => Aborted f
  end.

(** A call of one of the functions above inside [main]. *)
Definition lift {A : Type} (r : result A) : run A :=
  match r with
  | Ok a => Finished a
  | Raise e => Aborted (PyError e)
  end.

Definition fetch_json (fetch : string → option json) (url : string) : run json :=
  match fetch url with
  | Some data => Finished data
  | None => Aborted (FetchError url)
  end.

Fixpoint run_each {A S : Type} (xs : list A) (body : A → S → run S) (s : S) : run S :=
  match xs with
  | [] => Finished s
  | x :: xs' => s' ← body x s; run_each xs' body s'
  end.

Definition BASE : string := "https://data.sec.gov".
Definition tickers_url : string := "https://www.sec.gov/files/company_tickers.json".
Definition submissions_url (cik : string) : string :=
  BASE +:+ "/submissions/CIK" +:+ cik +:+ ".json".
Definition companyfacts_url (cik : string) : string :=
  BASE +:+ "/api/xbrl/companyfacts/CIK" +:+ cik +:+ ".json".

(** The body of [for t, cik in chosen]: both documents are fetched before
    either is read. *)
Definition company_step (fetch : string → option json) (item : string * string)
    (acc : list Row * list SubRow) : run (list Row * list SubRow) :=
  let '(t, cik) := item in
  let '(all_cf, all_sub) := acc in
  subs ← fetch_json fetch (submissions_url cik);
  facts ← fetch_json fetch (companyfacts_url cik);
  all_sub' ← lift (flatten_submissions cik t subs all_sub);
  cf_rows ← lift (normalize_companyfacts (zfill 10 cik) t facts);
  Finished (all_cf ++ cf_rows, all_sub').

(** [upload_to_gcs(path, bucket, dest)], with the text of the file at
    [path]. *)
Record Upload : Type := mkUpload {
  upload_bucket : string;
  upload_dest : string;
  upload_text : string
}.

Definition companyfacts_dest (date : string) : string :=
  "raw/" +:+ date +:+ "/companyfacts.ndjson".
Definition submissions_dest (date : string) : string :=
  "raw/" +:+ date +:+ "/submissions.ndjson".

(** Lines 90 to 113 of [main], for the values of [GCS_BUCKET] ([None]
    when it is not set) and [TICKERS]: the bucket and the rows of the two
    files. *)
Definition main_rows (BUCKET : option string) (TICKERS : list string)
    (fetch : string → option json) : run (string * (list Row * list SubRow)) :=
  match BUCKET with
  | None => Aborted AssertionError
  | Some bucket =>
      if String.eqb bucket "" then Aborted AssertionError
      else
        data ← fetch_json fetch tickers_url;
        t2c ← lift (get_ticker_cik_map data);
        pairs ← lift (chosen TICKERS t2c);
        rows ← run_each pairs (company_step fetch) ([], []);
        Finished (bucket, rows)
  end.

(** [Path("tmp") / "raw" / RAW_PREFIX_DATE / name] *)
Definition companyfacts_path (date : string) : string :=
  "tmp/raw/" +:+ date +:+ "/companyfacts.ndjson".
Definition submissions_path (date : string) : string :=
  "tmp/raw/" +:+ date +:+ "/submissions.ndjson".

(** How a run ends: the uploads it made, in order, and the failure that
    stopped it, if one did. *)
Record Outcome : Type := mkOutcome {
  uploaded : list Upload;
  failed : option failure
}.

(** [main()]: both files are written before either is uploaded, and the
    facts file is uploaded before the submissions file. *)
Definition main (BUCKET : option string) (TICKERS : list string)
    (RAW_PREFIX_DATE : string) (fetch : string → option json)
    (disk : string → bool) (gcs : Upload → bool) : Outcome :=
  match main_rows BUCKET TICKERS fetch with
  | Aborted f => mkOutcome [] (Some f)
  | Finished (bucket, (all_cf, all_sub)) =>
      let facts_file :=
        mkUpload bucket (companyfacts_dest RAW_PREFIX_DATE)
          (write_ndjson (map row_json all_cf)) in
      let submissions_file :=
        mkUpload bucket (submissions_dest RAW_PREFIX_DATE)
          (write_ndjson (map sub_row_json all_sub)) in
      if negb (disk (companyfacts_path RAW_PREFIX_DATE))
      then mkOutcome [] (Some (WriteError (companyfacts_path RAW_PREFIX_DATE)))
      else if negb (disk (submissions_path RAW_PREFIX_DATE))
      then mkOutcome [] (Some (WriteError (submissions_path RAW_PREFIX_DATE)))
      else if negb (gcs facts_file)
      then mkOutcome [] (Some (UploadError (companyfacts_dest RAW_PREFIX_DATE)))
      else if negb (gcs submissions_file)
      then mkOutcome [facts_file] (Some (UploadError (submissions_dest RAW_PREFIX_DATE)))
      else mkOutcome [facts_file; submissions_file] None
  end.

(** The pairs [main] works on: the configured tickers the table has, in
    the configured order. *)
Definition chosen_pairs (TICKERS : list string) (t2c : gmap string string)
    : list (string * string) :=
  omap (λ t, pair t <$> t2c !! t) TICKERS.

(** What one company adds to the two files when all goes well. *)
Definition company_ok (fetch : string → option json) (item : string * string)
    (out : list Row * list SubRow) : Prop :=
  ∃ subs facts,
    fetch (submissions_url item.2) = Some subs ∧
    fetch (companyfacts_url item.2) = Some facts ∧
    flatten_submissions item.2 item.1 subs [] = Ok out.2 ∧
    normalize_companyfacts item.2 item.1 facts = Ok out.1.

(** The two uploads of a run over companies whose rows are [outs]. *)
Definition uploads_of (bucket date : string) (outs : list (list Row * list SubRow))
    : list Upload :=
  [mkUpload bucket (companyfacts_dest date)
     (write_ndjson (map row_json (concat (map fst outs))));
   mkUpload bucket (submissions_dest date)
     (write_ndjson (map sub_row_json (concat (map snd outs))))].

(** A stand-in for the network: the table of the resolver test and the two
    documents of Apple. *)
Definition sample_fetch (url : string) : option json :=
  if String.eqb url tickers_url then Some mock_response
  else if String.eqb url (submissions_url "0000320193") then Some recent_filings
  else if String.eqb url (companyfacts_url "0000320193") then Some facts_data
  else None.

(** A disk on which every file can be written, a bucket that takes every
    upload, and one that takes the facts file and refuses the submissions
    file. *)
Definition writable (path : string) : bool := true.

Definition accepting (u : Upload) : bool := true.


Definition facts_only (u : Upload) : bool :=
  String.eqb (upload_dest u) (companyfacts_dest "20240102").

(** The rows of Apple in [sample_fetch]. *)
Definition sample_outs : list (list Row * list SubRow) :=
  [([mkRow "0000320193" "AAPL" "us-gaap:Revenues" "USD" (JStr "2023-12-31")
       (JInt 1000000) (JStr "123456") (JInt 2023) (JStr "FY") JNull JNull],
    [mkSubRow "0000320193" "AAPL" (JStr "Apple Inc.") (JStr "0000320193-24-000001")
       (JStr "10-K") (JStr "2024-01-02") (JStr "2023-12-31");
     mkSubRow "0000320193" "AAPL" (JStr "Apple Inc.") (JStr "0000320193-24-000002")
       (JStr "10-Q") (JStr "2024-04-02") (JStr "2024-03-31")])].

(** * Properties *)

(** ** The tests of the repository ([tests/test_ingestion.py]) *)

Example test_get_ticker_cik_map :
  ∃ result, get_ticker_cik_map mock_response = Ok result ∧
            result !! "AAPL" = Some "0000320193" ∧
            result !! "MSFT" = Some "0000789019".
Proof. eexists. repeat split; reflexivity. Qed.

Example test_normalize_companyfacts_empty :
  normalize_companyfacts "0000320193" "AAPL" (JObj []) = Ok [].
Proof. reflexivity. Qed.

Example test_normalize_companyfacts_with_data :
  normalize_companyfacts "0000320193" "AAPL" facts_data =
  Ok [mkRow "0000320193" "AAPL" "us-gaap:Revenues" "USD" (JStr "2023-12-31")
        (JInt 1000000) (JStr "123456") (JInt 2023) (JStr "FY") JNull JNull].
Proof. reflexivity. Qed.

Example flatten_recent_filings :
  flatten_submissions "0000320193" "AAPL" recent_filings [] =
  Ok [mkSubRow "0000320193" "AAPL" (JStr "Apple Inc.") (JStr "0000320193-24-000001")
        (JStr "10-K") (JStr "2024-01-02") (JStr "2023-12-31");
      mkSubRow "0000320193" "AAPL" (JStr "Apple Inc.") (JStr "0000320193-24-000002")
        (JStr "10-Q") (JStr "2024-04-02") (JStr "2024-03-31")].
Proof. reflexivity. Qed.

Example fallback_order :
  effective_concepts
    ["a:SalesX"; "b:NetIncome"; "c:revenueY"; "d:REVENUES"; "e:EarningsZ"; "f:IncomeTax"] =
  ["a:SalesX"; "c:revenueY"; "b:NetIncome"; "e:EarningsZ"].
Proof. reflexivity. Qed.

Example fallback_first_five :
  effective_concepts ["a:X"; "b:Y"; "c:Z"; "d:W"; "e:V"; "f:U"] =
  ["a:X"; "b:Y"; "c:Z"; "d:W"; "e:V"].
Proof. reflexivity. Qed.

(** ** Loops *)

Section for_each_facts.
Context {A S : Type}.
Implicit Types (xs : list A) (body : A → S → result S) (s : S).

Lemma for_each_cons x xs body s :
  for_each (x :: xs) body s = body x s ≫= for_each xs body.
Proof. reflexivity. Qed.

Lemma for_each_app xs ys body s :
  for_each (xs ++ ys) body s = for_each xs body s ≫= for_each ys body.
Proof.
  revert s. induction xs as [|x xs IH]; intros s; [done|].
  rewrite <- app_comm_cons, !for_each_cons.
  destruct (body x s) as [s'|e]; simpl; [apply IH | done].
Qed.

Lemma for_each_ext xs f g s :
  (∀ x, x ∈ xs → ∀ s, f x s = g x s) →
  for_each xs f s = for_each xs g s.
Proof.
  revert s. induction xs as [|x xs IH]; intros s Hfg; [done|].
  rewrite !for_each_cons, (Hfg x) by left.
  destruct (g x s) as [s'|e]; simpl; [|done].
  apply IH. intros y Hy. apply Hfg. by right.
Qed.

Lemma for_each_invariant (P : S → Prop) xs body s s' :
  (∀ x t t', x ∈ xs → P t → body x t = Ok t' → P t') →
  P s → for_each xs body s = Ok s' → P s'.
Proof.
  revert s. induction xs as [|x xs IH]; intros s Hstep Hs Hrun.
  - by injection Hrun as <-.
  - rewrite for_each_cons in Hrun.
    destruct (body x s) as [t|e] eqn:Hx; simpl in Hrun; [|done].
    apply (IH t); [|by eapply (Hstep x); [left|..]|done].
    intros y u u' Hy. apply Hstep. by right.
Qed.
End for_each_facts.

(** A loop whose body appends [f x] to the state appends them all. *)
Lemma for_each_appends {A B : Type} (f : A → list B) (xs : list A)
    (body : A → list B → result (list B)) (s : list B) :
  (∀ x, x ∈ xs → ∀ t, body x t = Ok (t ++ f x)) →
  for_each xs body s = Ok (s ++ flat_map f xs).
Proof.
  revert s. induction xs as [|x xs IH]; intros s Hbody; simpl.
  - by rewrite app_nil_r.
  - rewrite (Hbody x) by left. simpl.
    rewrite IH, app_assoc; [done|].
    intros y Hy. apply Hbody. by right.
Qed.

Lemma flat_map_flat_map {A B C : Type} (f : B → list C) (g : A → list B) (l : list A) :
  flat_map f (flat_map g l) = flat_map (λ x, flat_map f (g x)) l.
Proof.
  induction l as [|x l IH]; simpl; [done|].
  by rewrite flat_map_app, IH.
Qed.

Lemma flat_map_map {A B C : Type} (f : B → list C) (g : A → B) (l : list A) :
  flat_map f (map g l) = flat_map (λ x, f (g x)) l.
Proof. induction l as [|x l IH]; simpl; [done|]. by rewrite IH. Qed.

Lemma forallb_elem_of {A : Type} (p : A → bool) (l : list A) (x : A) :
  forallb p l = true → x ∈ l → p x = true.
Proof.
  rewrite forallb_forall. intros Hall Hx. apply Hall. by apply list_elem_of_In.
Qed.

(** ** Text *)

Lemma str_in_elem_of (x : string) (l : list string) :
  str_in x l = true ↔ x ∈ l.
Proof.
  unfold str_in. rewrite existsb_exists. split.
  - intros (y & Hy & Heq). apply String.eqb_eq in Heq as ->.
    by apply list_elem_of_In.
  - intros Hx. exists x. split; [by apply list_elem_of_In | apply String.eqb_refl].
Qed.

Lemma str_in_not_elem_of (x : string) (l : list string) :
  str_in x l = false ↔ x ∉ l.
Proof.
  rewrite <- str_in_elem_of. destruct (str_in x l); naive_solver.
Qed.

Lemma append_nil_l (s : string) : "" +:+ s = s.
Proof. reflexivity. Qed.

Lemma append_cons (c : ascii) (a b : string) :
  String c a +:+ b = String c (a +:+ b).
Proof. reflexivity. Qed.

Lemma append_nil_r (s : string) : s +:+ "" = s.
Proof.
  induction s as [|c s IH]; [done|]. by rewrite append_cons, IH.
Qed.

Lemma append_assoc (a b c : string) : (a +:+ b) +:+ c = a +:+ (b +:+ c).
Proof.
  induction a as [|x a IH]; [done|]. by rewrite !append_cons, IH.
Qed.

Lemma starts_with_spec (p s : string) :
  starts_with p s = true ↔ ∃ suf, s = p +:+ suf.
Proof.
  revert s. induction p as [|a p IH]; intros s; simpl.
  - split; [intros _; by exists s | done].
  - destruct s as [|b s].
    + split; [done | intros (suf & Hs); discriminate Hs].
    + rewrite andb_true_iff, Ascii.eqb_eq, IH. split.
      * intros (-> & suf & ->). by exists suf.
      * intros (suf & Hs). rewrite append_cons in Hs.
        injection Hs as -> ->. split; [done | by exists suf].
Qed.

Lemma str_contains_spec (term s : string) :
  str_contains term s = true ↔ ∃ pre suf, s = pre +:+ term +:+ suf.
Proof.
  induction s as [|c s IH].
  - simpl. rewrite orb_false_r, starts_with_spec. split.
    + intros (suf & Hs). by exists "", suf.
    + intros (pre & suf & Hs). destruct pre; [by exists suf | discriminate Hs].
  - cbn [str_contains]. rewrite orb_true_iff, starts_with_spec, IH. split.
    + intros [(suf & Hs) | (pre & suf & ->)].
      * by exists "", suf.
      * by exists (String c pre), suf.
    + intros ([|a pre] & suf & Hs).
      * left. by exists suf.
      * right. rewrite append_cons in Hs. injection Hs as -> ->. by exists pre, suf.
Qed.

Lemma lower_app (a b : string) : lower (a +:+ b) = lower a +:+ lower b.
Proof.
  induction a as [|c a IH]; [done|]. rewrite append_cons. simpl.
  by rewrite IH, append_cons.
Qed.

(** A piece of [lower s] is the lower-casing of a piece of [s]. *)
Lemma lower_app_inv (s a b : string) :
  lower s = a +:+ b → ∃ a' b', s = a' +:+ b' ∧ lower a' = a ∧ lower b' = b.
Proof.
  revert s. induction a as [|x a IH]; intros s Hs.
  - by exists "", s.
  - destruct s as [|c s]; [discriminate Hs|].
    rewrite append_cons in Hs. simpl in Hs. injection Hs as <- Hs.
    destruct (IH s Hs) as (a' & b' & -> & <- & <-).
    by exists (String c a'), b'.
Qed.

Lemma lower_contains (term c : string) :
  str_contains term (lower c) = true ↔ ci_contains term c.
Proof.
  rewrite str_contains_spec. unfold ci_contains. split.
  - intros (pre & suf & Hc).
    destruct (lower_app_inv _ _ _ Hc) as (pre' & rest & -> & _ & Hrest).
    destruct (lower_app_inv _ _ _ Hrest) as (w & suf' & -> & Hw & _).
    by exists pre', w, suf'.
  - intros (pre & w & suf & -> & <-).
    exists (lower pre), (lower suf). by rewrite !lower_app.
Qed.

Lemma matches_any_spec (terms : list string) (c : string) :
  matches_any terms c = true ↔ ∃ term, term ∈ terms ∧ ci_contains term c.
Proof.
  unfold matches_any. rewrite existsb_exists.
  split; intros (term & Hin & Hc); exists term;
    (split; [by apply list_elem_of_In | by apply lower_contains]).
Qed.

(** ** The available concepts *)

Lemma available_concepts_flat_map (all_facts : object) :
  available_concepts all_facts = flat_map namespace_concepts all_facts.
Proof.
  unfold available_concepts.
  rewrite <- (app_nil_l (flat_map _ _)). generalize (@nil string) as acc.
  induction all_facts as [|[ns body] items IH]; intros acc; simpl.
  - by rewrite app_nil_r.
  - rewrite IH. unfold namespace_concepts at 2. simpl.
    destruct body; simpl; try done. by rewrite app_assoc.
Qed.

Lemma elem_of_available_concepts (c : string) (all_facts : object) :
  c ∈ available_concepts all_facts ↔
  ∃ ns facts fact body,
    (ns, JObj facts) ∈ all_facts ∧ (fact, body) ∈ facts ∧ c = concept_name ns fact.
Proof.
  rewrite available_concepts_flat_map, list_elem_of_In, in_flat_map. split.
  - intros ([ns nf] & Hin & Hc). unfold namespace_concepts in Hc. simpl in Hc.
    destruct nf as [| | | | | |facts]; try done.
    apply list_elem_of_In, list_elem_of_fmap in Hc as ([fact body] & -> & Hfact).
    exists ns, facts, fact, body. by rewrite list_elem_of_In.
  - intros (ns & facts & fact & body & Hns & Hfact & ->).
    exists (ns, JObj facts). split; [by apply list_elem_of_In|].
    unfold namespace_concepts. simpl. apply list_elem_of_In, list_elem_of_fmap.
    by exists (fact, body).
Qed.

(** ** The row-emission walk *)

Section walk.
Variables cik ticker : string.

Lemma observation_step_dict concept unit (o : object) rows :
  observation_step cik ticker concept unit (JObj o) rows =
  Ok (rows ++ observation_rows cik ticker (concept, unit, JObj o)).
Proof.
  unfold observation_step, observation_rows, period_marker, fact_row, py_get.
  simpl. fold (field o "end") (field o "fy") (field o "val") (field o "accn")
    (field o "fp") (field o "form") (field o "filed").
  destruct (py_truthy (field o "end")) eqn:Hend; simpl.
  - by rewrite Hend.
  - destruct (py_truthy (field o "fy")) eqn:Hfy; simpl; [done|].
    by rewrite app_nil_r.
Qed.

Lemma unit_step_shaped concept (item : string * json) rows :
  shaped_unit item = true →
  unit_step cik ticker concept item rows =
  Ok (rows ++ flat_map (observation_rows cik ticker) (unit_observations concept item)).
Proof.
  destruct item as [unit arr]. unfold shaped_unit, unit_observations. simpl.
  destruct arr as [| | | | |obs|]; try done. intros Hobs. simpl.
  rewrite flat_map_map.
  apply for_each_appends. intros ob Hob t.
  apply (forallb_elem_of _ _ _ Hobs) in Hob.
  destruct ob; try done. apply observation_step_dict.
Qed.

Lemma fact_step_shaped concepts namespace (item : string * json) rows :
  shaped_fact concepts namespace item = true →
  fact_step cik ticker concepts namespace item rows =
  Ok (rows ++ flat_map (observation_rows cik ticker)
                (fact_observations concepts namespace item)).
Proof.
  destruct item as [fact body]. unfold shaped_fact, fact_step, fact_observations.
  simpl. destruct (str_in _ concepts); simpl; [|by rewrite app_nil_r].
  destruct body as [| | | | | |b]; try done. simpl.
  destruct (obj_lookup "units" b) as [units|]; simpl; [|by rewrite app_nil_r].
  destruct units as [| | | | | |units]; try done. simpl. intros Hunits.
  rewrite flat_map_flat_map.
  apply for_each_appends. intros item Hitem t.
  apply unit_step_shaped, (forallb_elem_of _ _ _ Hunits), Hitem.
Qed.

Lemma namespace_step_shaped concepts (item : string * json) rows :
  shaped_namespace concepts item = true →
  namespace_step cik ticker concepts item rows =
  Ok (rows ++ flat_map (observation_rows cik ticker)
                (namespace_observations concepts item)).
Proof.
  destruct item as [namespace nf]. unfold shaped_namespace, namespace_observations.
  simpl. destruct nf as [| | | | | |facts]; try by rewrite app_nil_r.
  intros Hfacts. rewrite flat_map_flat_map.
  apply for_each_appends. intros item Hitem t.
  apply fact_step_shaped, (forallb_elem_of _ _ _ Hfacts), Hitem.
Qed.

(** On a document of the right shape the walk raises nothing and appends
    the rows of the selected observations, in document order. *)
Lemma walk_shaped concepts (all_facts : object) rows :
  shaped_facts concepts all_facts = true →
  for_each all_facts (namespace_step cik ticker concepts) rows =
  Ok (rows ++ flat_map (observation_rows cik ticker)
                (selected_observations concepts all_facts)).
Proof.
  intros Hshape. unfold selected_observations. rewrite flat_map_flat_map.
  apply for_each_appends. intros item Hitem t.
  apply namespace_step_shaped, (forallb_elem_of _ _ _ Hshape), Hitem.
Qed.

(** Every row the walk appends carries a concept of [concepts] that the
    document offers. *)
Lemma observation_step_concept (P : Row → Prop) concept unit ob rows rows' :
  (∀ r, row_concept r = concept → P r) →
  Forall P rows →
  observation_step cik ticker concept unit ob rows = Ok rows' →
  Forall P rows'.
Proof.
  intros HP Hrows. destruct ob as [| | | | | |o]; try done.
  rewrite observation_step_dict. intros [= <-].
  apply Forall_app. split; [done|]. simpl.
  destruct (period_marker o); [|done]. apply Forall_singleton. by apply HP.
Qed.

Lemma fact_step_concept (P : Row → Prop) concepts namespace fact body rows rows' :
  (∀ r, row_concept r = concept_name namespace fact →
        concept_name namespace fact ∈ concepts → P r) →
  Forall P rows →
  fact_step cik ticker concepts namespace (fact, body) rows = Ok rows' →
  Forall P rows'.
Proof.
  intros HP Hrows. unfold fact_step.
  destruct (str_in _ concepts) eqn:Hin; simpl; [|by intros [= <-]].
  apply str_in_elem_of in Hin.
  destruct (py_get_default body "units" (JObj [])) as [units|]; simpl; [|done].
  destruct (py_items units) as [unit_items|]; simpl; [|done].
  apply for_each_invariant; [|done].
  intros [unit arr] t t' _ Ht. unfold unit_step.
  destruct (py_iter arr) as [obs|]; simpl; [|done].
  apply for_each_invariant; [|done].
  intros ob u u' _ Hu. apply observation_step_concept; [|done].
  intros r Hr. by apply HP.
Qed.

Lemma walk_kept concepts (all_facts : object) rows rows' :
  kept concepts all_facts rows →
  for_each all_facts (namespace_step cik ticker concepts) rows = Ok rows' →
  kept concepts all_facts rows'.
Proof.
  apply for_each_invariant.
  intros [namespace nf] t t' Hns Ht. unfold namespace_step.
  destruct nf as [| | | | | |facts]; try by intros [= <-].
  apply for_each_invariant; [|done].
  intros [fact body] u u' Hfact Hu. apply fact_step_concept; [|done].
  intros r -> Hin. split; [done|].
  apply elem_of_available_concepts. by exists namespace, facts, fact, body.
Qed.

(** The walk consults [concepts] only on concepts the document offers. *)
Lemma walk_ext concepts concepts' (all_facts : object) rows :
  (∀ c, c ∈ available_concepts all_facts → str_in c concepts = str_in c concepts') →
  for_each all_facts (namespace_step cik ticker concepts) rows =
  for_each all_facts (namespace_step cik ticker concepts') rows.
Proof.
  intros Hsame. apply for_each_ext.
  intros [namespace nf] Hns t. unfold namespace_step.
  destruct nf as [| | | | | |facts]; try done.
  apply for_each_ext. intros [fact body] Hfact u. unfold fact_step.
  rewrite (Hsame (concept_name namespace fact)); [done|].
  apply elem_of_available_concepts. by exists namespace, facts, fact, body.
Qed.
End walk.

(** ** The concept selection *)

Lemma filter_nil_iff {A : Type} (f : A → bool) (l : list A) :
  List.filter f l = [] ↔ ∀ x, x ∈ l → f x = false.
Proof.
  induction l as [|x l IH]; simpl.
  - split; [intros _ y Hy; by apply elem_of_nil in Hy | done].
  - destruct (f x) eqn:Hx.
    + split; [done|]. intros Hall. rewrite (Hall x) in Hx by left. done.
    + rewrite IH. split.
      * intros Hall y [->|Hy]%elem_of_cons; [done | by apply Hall].
      * intros Hall y Hy. apply Hall. by right.
Qed.

Lemma original_concept_count_zero (available : list string) :
  original_concept_count available = 0 ↔
  ∀ c, c ∈ preferred_concepts → c ∉ available.
Proof.
  unfold original_concept_count.
  rewrite length_zero_iff_nil, filter_nil_iff.
  split; intros Hnone c Hc; apply str_in_not_elem_of, Hnone, Hc.
Qed.

Lemma effective_concepts_preferred (available : list string) :
  (∃ c, c ∈ preferred_concepts ∧ c ∈ available) →
  effective_concepts available = preferred_concepts.
Proof.
  intros (c & Hc & Hav). unfold effective_concepts.
  destruct (Nat.eqb_spec (original_concept_count available) 0) as [Hzero|]; [|done].
  rewrite original_concept_count_zero in Hzero. by destruct (Hzero c Hc).
Qed.

(** [normalize_companyfacts] on a document that has namespaces. *)
Lemma normalize_companyfacts_walk (cik ticker : string) (top all_facts : object) :
  obj_lookup "facts" top = Some (JObj all_facts) →
  normalize_companyfacts cik ticker (JObj top) =
  for_each all_facts
    (namespace_step cik ticker (effective_concepts (available_concepts all_facts))) [].
Proof.
  intros Hfacts. unfold normalize_companyfacts. simpl. rewrite Hfacts. simpl.
  by destruct all_facts.
Qed.

(** C1: when one of the six preferred concepts is among the available
    concepts, the effective concept list is the preferred list as it
    stands; the preferred concepts the document lacks leave no trace on
    the outcome (the run is the one over the preferred concepts that are
    available, rows or exception alike) and no row carries one of them; on
    a document of the data model's shape the run returns its rows. *)
Theorem preferred_concepts_selected (cik ticker : string) (top all_facts : object) :
  obj_lookup "facts" top = Some (JObj all_facts) →
  (∃ c, c ∈ preferred_concepts ∧ c ∈ available_concepts all_facts) →
  let available := available_concepts all_facts in
  effective_concepts available = preferred_concepts ∧
  normalize_companyfacts cik ticker (JObj top) =
    for_each all_facts
      (namespace_step cik ticker
         (List.filter (λ c, str_in c available) preferred_concepts)) [] ∧
  (∀ rows c r,
     normalize_companyfacts cik ticker (JObj top) = Ok rows →
     c ∈ preferred_concepts → c ∉ available → r ∈ rows → row_concept r ≠ c) ∧
  (shaped_facts preferred_concepts all_facts = true →
   normalize_companyfacts cik ticker (JObj top) =
     Ok (flat_map (observation_rows cik ticker)
           (selected_observations preferred_concepts all_facts))).
Proof.
  intros Hfacts Hsome available.
  pose proof (effective_concepts_preferred available Hsome) as Heff.
  pose proof (normalize_companyfacts_walk cik ticker top all_facts Hfacts) as Hwalk.
  fold available in Hwalk. rewrite Heff in Hwalk.
  split; [done|]. split; [|split].
  - rewrite Hwalk. apply walk_ext. intros c Hc.
    destruct (str_in c preferred_concepts) eqn:Hpref; symmetry.
    + apply str_in_elem_of, list_elem_of_In, filter_In.
      split; [by apply list_elem_of_In, str_in_elem_of | by apply str_in_elem_of].
    + apply str_in_not_elem_of. intros [Hin _]%list_elem_of_In%filter_In.
      apply list_elem_of_In, str_in_elem_of in Hin. congruence.
  - intros rows c r Hrows Hc Hav Hr <-. rewrite Hwalk in Hrows.
    apply walk_kept in Hrows; [|by apply Forall_nil].
    unfold kept in Hrows. rewrite Forall_forall in Hrows.
    by destruct (Hrows r Hr) as [_ Hoffered].
  - intros Hshape. rewrite Hwalk. by apply walk_shaped.
Qed.

Lemma preferred_concepts_selected_witness :
  effective_concepts (available_concepts revenues_namespaces) = preferred_concepts ∧
  normalize_companyfacts "0000320193" "AAPL" facts_data =
    Ok [fact_row "0000320193" "AAPL" "us-gaap:Revenues" "USD" revenues_observation
          (JStr "2023-12-31")].
Proof.
  destruct (preferred_concepts_selected "0000320193" "AAPL"
              [("facts", JObj revenues_namespaces)] revenues_namespaces)
    as (Heff & _ & _ & Hrows).
  - reflexivity.
  - exists "us-gaap:Revenues". split; apply str_in_elem_of; reflexivity.
  - split; [exact Heff|]. apply Hrows. reflexivity.
Defined.

(** C2: when none of the preferred concepts is available, the effective
    list is the first two available concepts that contain "revenue" or
    "sales" up to case, followed by the first two that contain "income" or
    "earnings" up to case; when there is no such concept at all it is the
    first five available concepts.  The available concepts come in
    document order, and the text matched is the whole [namespace:name].
    This is the list the walk of [normalize_companyfacts] runs with. *)
Theorem fallback_concepts_selected (cik ticker : string) (top all_facts : object) :
  obj_lookup "facts" top = Some (JObj all_facts) →
  (∀ c, c ∈ preferred_concepts → c ∉ available_concepts all_facts) →
  let available := available_concepts all_facts in
  available = flat_map namespace_concepts all_facts ∧
  ∃ is_revenue is_income : string → bool,
    (∀ c, is_revenue c = true ↔ ci_contains "revenue" c ∨ ci_contains "sales" c) ∧
    (∀ c, is_income c = true ↔ ci_contains "income" c ∨ ci_contains "earnings" c) ∧
    let candidates :=
      take 2 (List.filter is_revenue available) ++
      take 2 (List.filter is_income available) in
    effective_concepts available =
      match candidates with [] => take 5 available | _ => candidates end ∧
    normalize_companyfacts cik ticker (JObj top) =
      for_each all_facts
        (namespace_step cik ticker (effective_concepts available)) [].
Proof.
  intros Hfacts Hnone available.
  split; [apply available_concepts_flat_map|].
  exists (matches_any ["revenue"; "sales"]), (matches_any ["income"; "earnings"]).
  split; [|split; [|split]].
  - intros c. rewrite matches_any_spec. split.
    + intros (term & Hterm & Hc).
      apply elem_of_cons in Hterm as [->|Hterm]; [by left|].
      apply list_elem_of_singleton in Hterm as ->. by right.
    + intros [Hc|Hc]; [exists "revenue" | exists "sales"]; (split; [set_solver | done]).
  - intros c. rewrite matches_any_spec. split.
    + intros (term & Hterm & Hc).
      apply elem_of_cons in Hterm as [->|Hterm]; [by left|].
      apply list_elem_of_singleton in Hterm as ->. by right.
    + intros [Hc|Hc]; [exists "income" | exists "earnings"]; (split; [set_solver | done]).
  - unfold effective_concepts.
    apply original_concept_count_zero in Hnone. fold available in Hnone.
    by rewrite Hnone.
  - by apply normalize_companyfacts_walk.
Qed.

Lemma fallback_concepts_selected_witness :
  effective_concepts (available_concepts ifrs_namespaces) =
    ["ifrs-full:Revenue"; "ifrs-full:IncomeTaxExpense"] ∧
  ∃ is_revenue is_income : string → bool,
    (∀ c, is_revenue c = true ↔ ci_contains "revenue" c ∨ ci_contains "sales" c) ∧
    (∀ c, is_income c = true ↔ ci_contains "income" c ∨ ci_contains "earnings" c) ∧
    effective_concepts (available_concepts ifrs_namespaces) =
      take 2 (List.filter is_revenue (available_concepts ifrs_namespaces)) ++
      take 2 (List.filter is_income (available_concepts ifrs_namespaces)).
Proof.
  split; [reflexivity|].
  destruct (fallback_concepts_selected "0000001234" "ACME"
              [("cik", JInt 1234); ("facts", JObj ifrs_namespaces)] ifrs_namespaces)
    as (_ & is_revenue & is_income & Hrev & Hinc & Heff & _).
  - reflexivity.
  - apply original_concept_count_zero. reflexivity.
  - exists is_revenue, is_income. split; [exact Hrev|]. split; [exact Hinc|].
    cbv zeta in Heff.
    destruct (take 2 (List.filter is_revenue (available_concepts ifrs_namespaces)) ++
              take 2 (List.filter is_income (available_concepts ifrs_namespaces)))
      eqn:Hcand; [|exact Heff].
    exfalso. apply app_eq_nil in Hcand as [Hnil _].
    assert (is_revenue "ifrs-full:Revenue" = true) as Hyes.
    { apply Hrev. left. by exists "ifrs-full:", "Revenue", "". }
    assert (available_concepts ifrs_namespaces =
            ["ifrs-full:Revenue"; "ifrs-full:ProfitLoss"; "ifrs-full:IncomeTaxExpense"])
      as Havail by reflexivity.
    rewrite Havail in Hnil. simpl in Hnil. rewrite Hyes in Hnil. discriminate Hnil.
Defined.

(** C3: on a document of the data model's shape the output is, in
    document order, what the observations of the selected concepts emit;
    an observation emits one row marked with its period-end date when that
    is not empty, one row marked with its fiscal year when the period-end
    date is empty or missing and the fiscal year is not, and nothing (and
    no exception) when both are empty or missing. *)
Theorem observation_rows_emitted (cik ticker : string) (top all_facts : object) :
  obj_lookup "facts" top = Some (JObj all_facts) →
  shaped_facts (effective_concepts (available_concepts all_facts)) all_facts = true →
  normalize_companyfacts cik ticker (JObj top) =
    Ok (flat_map (observation_rows cik ticker)
          (selected_observations (effective_concepts (available_concepts all_facts))
             all_facts)) ∧
  ∀ concept unit (o : object) rows,
    let step := observation_step cik ticker concept unit (JObj o) rows in
    let row := fact_row cik ticker concept unit o in
    step = Ok (rows ++ observation_rows cik ticker (concept, unit, JObj o)) ∧
    (py_truthy (field o "end") = true → step = Ok (rows ++ [row (field o "end")])) ∧
    (py_truthy (field o "end") = false → py_truthy (field o "fy") = true →
     step = Ok (rows ++ [row (field o "fy")])) ∧
    (py_truthy (field o "end") = false → py_truthy (field o "fy") = false →
     step = Ok rows) ∧
    (obj_lookup "end" o = None → obj_lookup "fy" o = None → step = Ok rows).
Proof.
  intros Hfacts Hshape. split.
  - rewrite (normalize_companyfacts_walk _ _ _ _ Hfacts). by apply walk_shaped.
  - intros concept unit o rows step row. unfold step, row.
    rewrite observation_step_dict. split; [done|].
    unfold observation_rows, period_marker.
    split; [|split; [|split]].
    + by intros ->.
    + by intros -> ->.
    + intros -> ->. by rewrite app_nil_r.
    + intros Hend Hfy. unfold field. rewrite Hend, Hfy. simpl. by rewrite app_nil_r.
Qed.

Lemma observation_rows_emitted_witness :
  normalize_companyfacts "0000001234" "ACME" ifrs_facts =
    Ok [mkRow "0000001234" "ACME" "ifrs-full:Revenue" "EUR" (JInt 2022) (JInt 500)
          JNull (JInt 2022) JNull JNull JNull;
        mkRow "0000001234" "ACME" "ifrs-full:IncomeTaxExpense" "EUR" (JStr "2022-12-31")
          (JInt 9) JNull JNull JNull JNull JNull].
Proof.
  destruct (observation_rows_emitted "0000001234" "ACME"
              [("cik", JInt 1234); ("facts", JObj ifrs_namespaces)] ifrs_namespaces)
    as [Hrows _].
  - reflexivity.
  - reflexivity.
  - exact Hrows.
Defined.

(** C4: a document whose ["facts"] mapping is missing or empty, the empty
    document included, gives the empty list of rows and no exception. *)
Theorem no_namespaces_no_rows (cik ticker : string) (top : object) :
  obj_lookup "facts" top = None ∨ obj_lookup "facts" top = Some (JObj []) →
  normalize_companyfacts cik ticker (JObj top) = Ok [].
Proof.
  unfold normalize_companyfacts. simpl. by intros [-> | ->].
Qed.

Lemma no_namespaces_no_rows_witness :
  normalize_companyfacts "0000320193" "AAPL" (JObj []) = Ok [] ∧
  normalize_companyfacts "0000320193" "AAPL" (JObj [("facts", JObj [])]) = Ok [].
Proof.
  split.
  - apply (no_namespaces_no_rows "0000320193" "AAPL" []). left. reflexivity.
  - apply (no_namespaces_no_rows "0000320193" "AAPL" [("facts", JObj [])]).
    right. reflexivity.
Defined.

(** C5: the concept of every row of the output belongs to the effective
    concept list computed from the document. *)
Theorem rows_in_effective_set (cik ticker : string) (facts : json)
    (rows : list Row) (r : Row) :
  normalize_companyfacts cik ticker facts = Ok rows →
  r ∈ rows →
  ∃ all_facts,
    py_get_default facts "facts" (JObj []) = Ok (JObj all_facts) ∧
    row_concept r ∈ effective_concepts (available_concepts all_facts).
Proof.
  unfold normalize_companyfacts.
  destruct (py_get_default facts "facts" (JObj [])) as [all_facts|]; simpl; [|done].
  destruct (py_truthy all_facts); simpl.
  - destruct all_facts as [| | | | | |ns_items]; simpl; try done.
    intros Hrows Hr. exists ns_items. split; [done|].
    apply walk_kept in Hrows; [|by apply Forall_nil].
    unfold kept in Hrows. rewrite Forall_forall in Hrows.
    by destruct (Hrows r Hr).
  - intros [= <-] Hr. by apply elem_of_nil in Hr.
Qed.

Lemma rows_in_effective_set_witness :
  "ifrs-full:IncomeTaxExpense" ∈ effective_concepts (available_concepts ifrs_namespaces).
Proof.
  destruct (rows_in_effective_set "0000001234" "ACME" ifrs_facts _
              (mkRow "0000001234" "ACME" "ifrs-full:IncomeTaxExpense" "EUR"
                 (JStr "2022-12-31") (JInt 9) JNull JNull JNull JNull JNull)
              eq_refl)
    as (all_facts & Hfacts & Hin).
  - right. left.
  - injection Hfacts as <-. exact Hin.
Defined.

(** C10: a namespace whose body is not a dict adds nothing to the
    available concepts, is stepped over by the walk, and leaves the
    outcome of [normalize_companyfacts] what it is without that
    namespace. *)
Theorem non_dict_namespace_skipped (cik ticker : string) (top top' pre post : object)
    (namespace : string) (body : json) :
  is_dict body = false →
  obj_lookup "facts" top = Some (JObj (pre ++ (namespace, body) :: post)) →
  obj_lookup "facts" top' = Some (JObj (pre ++ post)) →
  available_concepts (pre ++ (namespace, body) :: post) = available_concepts (pre ++ post) ∧
  (∀ concepts rows,
     namespace_step cik ticker concepts (namespace, body) rows = Ok rows) ∧
  normalize_companyfacts cik ticker (JObj top) =
  normalize_companyfacts cik ticker (JObj top').
Proof.
  intros Hbody Htop Htop'.
  assert (∀ concepts rows,
            namespace_step cik ticker concepts (namespace, body) rows = Ok rows) as Hstep.
  { intros concepts rows. by destruct body. }
  assert (available_concepts (pre ++ (namespace, body) :: post) =
          available_concepts (pre ++ post)) as Havail.
  { rewrite !available_concepts_flat_map, !flat_map_app. simpl.
    unfold namespace_concepts at 2. simpl. by destruct body. }
  split; [done|]. split; [done|].
  rewrite (normalize_companyfacts_walk _ _ _ _ Htop),
    (normalize_companyfacts_walk _ _ _ _ Htop'), Havail, !for_each_app.
  destruct (for_each pre _ []) as [rows|]; [|done].
  change (for_each ((namespace, body) :: post)
            (namespace_step cik ticker
               (effective_concepts (available_concepts (pre ++ post)))) rows =
          for_each post
            (namespace_step cik ticker
               (effective_concepts (available_concepts (pre ++ post)))) rows).
  by rewrite for_each_cons, Hstep.
Qed.

Lemma non_dict_namespace_skipped_witness :
  normalize_companyfacts "0000001234" "ACME" ifrs_facts =
  normalize_companyfacts "0000001234" "ACME" (JObj [("facts", JObj (tail ifrs_namespaces))]).
Proof.
  apply (non_dict_namespace_skipped "0000001234" "ACME"
           [("cik", JInt 1234); ("facts", JObj ifrs_namespaces)]
           [("facts", JObj (tail ifrs_namespaces))]
           [] (tail ifrs_namespaces) "dei" (JStr "n/a")); reflexivity.
Defined.

(** ** The submission flattening *)

(** C6, as the code has it: when the recent-filings block, or the filings
    block that holds it, is missing, the defaults of the [.get] calls make
    the loop run zero times: no submission row is added and no exception
    is raised. *)
Theorem absent_recent_block_no_rows (cik t : string) (top : object)
    (all_sub : list SubRow) :
  (obj_lookup "filings" top = None ∨
   ∃ filings, obj_lookup "filings" top = Some (JObj filings) ∧
              obj_lookup "recent" filings = None) →
  flatten_submissions cik t (JObj top) all_sub = Ok all_sub.
Proof.
  unfold flatten_submissions. simpl.
  intros [-> | (filings & -> & Hrecent)]; simpl; [done|].
  by rewrite Hrecent.
Qed.

Lemma absent_recent_block_no_rows_witness :
  flatten_submissions "0000320193" "AAPL" (JObj []) [] = Ok [].
Proof.
  apply (absent_recent_block_no_rows "0000320193" "AAPL" [] []).
  left. reflexivity.
Defined.

(** The claim says a document without the recent-filings block makes the
    step raise; it returns, with no row. *)
Lemma absent_recent_block_not_loud :
  (∃ filings, py_get no_recent_filings "filings" = Ok (JObj filings) ∧
              obj_lookup "recent" filings = None) ∧
  flatten_submissions "0000320193" "AAPL" no_recent_filings [] = Ok [] ∧
  ¬ ∃ e, flatten_submissions "0000320193" "AAPL" no_recent_filings [] = Raise e.
Proof.
  split; [|split; [reflexivity|]].
  - exists [("files", JArr [])]. split; reflexivity.
  - intros [e He]. discriminate He.
Qed.

(** Where the step does raise: a sibling array that is missing or shorter
    than [accessionNumber]. *)
Lemma missing_sibling_array_raises (cik t : string) (top filings rec : object)
    (a : json) (accession_numbers : list json) (all_sub : list SubRow) :
  obj_lookup "filings" top = Some (JObj filings) →
  obj_lookup "recent" filings = Some (JObj rec) →
  obj_lookup "accessionNumber" rec = Some (JArr (a :: accession_numbers)) →
  obj_lookup "form" rec = None →
  flatten_submissions cik t (JObj top) all_sub = Raise KeyError.
Proof.
  intros Hfilings Hrecent Hacc Hform. unfold flatten_submissions. simpl.
  rewrite Hfilings. simpl. rewrite Hrecent. simpl. rewrite Hacc. simpl.
  unfold submission_step, rec_at. simpl. by rewrite Hacc, Hform.
Qed.

Lemma short_sibling_array_raises (cik t : string) (top filings rec : object)
    (a : json) (all_sub : list SubRow) :
  obj_lookup "filings" top = Some (JObj filings) →
  obj_lookup "recent" filings = Some (JObj rec) →
  obj_lookup "accessionNumber" rec = Some (JArr [a]) →
  obj_lookup "form" rec = Some (JArr []) →
  flatten_submissions cik t (JObj top) all_sub = Raise IndexError.
Proof.
  intros Hfilings Hrecent Hacc Hform. unfold flatten_submissions. simpl.
  rewrite Hfilings. simpl. rewrite Hrecent. simpl. rewrite Hacc. simpl.
  unfold submission_step, rec_at. simpl. by rewrite Hacc, Hform.
Qed.

(** ** The ticker resolver *)

Lemma resolver_step_entry (v : json) (t : string) (c : json) (t2c : gmap string string) :
  entry_fields v = Some (t, c) →
  resolver_step v t2c = Ok (<[upper t := zfill 10 (py_str c)]> t2c).
Proof.
  unfold entry_fields, resolver_step. destruct v as [| | | | | |o]; try done. simpl.
  destruct (obj_lookup "ticker" o) as [[| | | |s| |]|]; try done.
  destruct (obj_lookup "cik_str" o) as [c'|]; [|done].
  by intros [= -> ->].
Qed.

Lemma resolver_loop_entries (values : list json) (t2c : gmap string string) :
  Forall (λ v, is_Some (entry_fields v)) values →
  for_each values resolver_step t2c = Ok (resolved values t2c).
Proof.
  revert t2c. induction values as [|v values IH]; intros t2c Hall; [done|].
  apply Forall_cons in Hall as [[[t c] Hv] Hall].
  rewrite for_each_cons, (resolver_step_entry _ _ _ _ Hv). simpl.
  rewrite IH by done. unfold resolved. simpl. by rewrite Hv.
Qed.

Lemma resolved_app (pre post : list json) (t2c : gmap string string) :
  resolved (pre ++ post) t2c = resolved post (resolved pre t2c).
Proof. unfold resolved. by rewrite foldl_app. Qed.

(** A key no entry is stored under keeps what it had. *)
Lemma resolved_lookup_other (values : list json) (t2c : gmap string string) (T : string) :
  (∀ v, v ∈ values → entry_key v ≠ Some T) →
  resolved values t2c !! T = t2c !! T.
Proof.
  revert t2c. induction values as [|v values IH]; intros t2c Hother; [done|].
  change (resolved (v :: values) t2c) with
    (resolved values (match entry_fields v with
                      | Some (t, c) => <[upper t := zfill 10 (py_str c)]> t2c
                      | None => t2c
                      end)).
  rewrite IH by (intros v' Hv'; apply Hother; by right).
  pose proof (Hother v ltac:(left)) as Hv. unfold entry_key in Hv.
  destruct (entry_fields v) as [[t c]|]; [|done]. simpl in Hv.
  apply lookup_insert_ne. congruence.
Qed.

(** The last entry stored under a key decides its value. *)
Lemma resolved_lookup_last (pre post : list json) (v : json) (t : string) (c : json)
    (t2c : gmap string string) :
  entry_fields v = Some (t, c) →
  (∀ v', v' ∈ post → entry_key v' ≠ Some (upper t)) →
  resolved (pre ++ v :: post) t2c !! upper t = Some (zfill 10 (py_str c)).
Proof.
  intros Hv Hlast.
  rewrite resolved_app.
  change (resolved (v :: post) (resolved pre t2c)) with
    (resolved post (match entry_fields v with
                    | Some (t, c) => <[upper t := zfill 10 (py_str c)]> (resolved pre t2c)
                    | None => resolved pre t2c
                    end)).
  rewrite Hv, resolved_lookup_other by done.
  apply lookup_insert_eq.
Qed.

(** Whatever is stored under a key comes from an entry with that key. *)
Lemma resolved_lookup_inv (values : list json) (t2c : gmap string string)
    (T s : string) :
  resolved values t2c !! T = Some s →
  t2c !! T = Some s ∨
  ∃ v t c, v ∈ values ∧ entry_fields v = Some (t, c) ∧ upper t = T ∧
           s = zfill 10 (py_str c).
Proof.
  revert t2c. induction values as [|v values IH]; intros t2c Hs; [by left|].
  change (resolved (v :: values) t2c) with
    (resolved values (match entry_fields v with
                      | Some (t, c) => <[upper t := zfill 10 (py_str c)]> t2c
                      | None => t2c
                      end)) in Hs.
  apply IH in Hs as [Hs | (v' & t & c & Hv' & Hfields & HT & Hs)].
  - destruct (entry_fields v) as [[t c]|] eqn:Hv; [|by left].
    destruct (decide (upper t = T)) as [HT|HT].
    + right. exists v, t, c. rewrite <- HT, lookup_insert_eq in Hs.
      injection Hs as <-. split; [left|done].
    + left. by rewrite lookup_insert_ne in Hs.
  - right. exists v', t, c. split; [by right|done].
Qed.

Lemma get_ticker_cik_map_entries (items : object) :
  Forall (λ kv, is_Some (entry_fields kv.2)) items →
  get_ticker_cik_map (JObj items) = Ok (resolved (map snd items) ∅).
Proof.
  intros Hall. unfold get_ticker_cik_map. simpl.
  apply resolver_loop_entries. by apply Forall_fmap.
Qed.

(** The text of a non-negative integer starts with a digit, so [zfill]
    pads it on the left. *)
Lemma zfill_int_str (width : nat) (n : Z) :
  (0 ≤ n)%Z → zfill width (int_str n) = left_pad width (int_str n).
Proof.
  intros Hn. unfold zfill, left_pad, int_str.
  destruct n as [|p|p]; [done| |lia].
  unfold Z.to_int, NilZero.string_of_int, NilZero.string_of_uint.
  by destruct (Pos.to_uint p).
Qed.

Lemma chosen_present (TICKERS : list string) (t2c : gmap string string) :
  chosen TICKERS t2c = Ok (omap (λ t, pair t <$> t2c !! t) TICKERS).
Proof.
  unfold chosen.
  rewrite (for_each_appends
             (λ t, match t2c !! t with Some cik => [(t, cik)] | None => [] end)).
  - simpl. f_equal. induction TICKERS as [|t tickers IH]; [done|].
    simpl. rewrite IH. by destruct (t2c !! t).
  - intros t _ acc. unfold dict_getitem.
    destruct (t2c !! t) as [cik|] eqn:Ht.
    + by rewrite bool_decide_true by done.
    + rewrite bool_decide_false by (by intros [? ?]). by rewrite app_nil_r.
Qed.

(** C7, as the code has it: when a ticker occurs in several entries of a
    table of ASCII tickers, the comprehension stores each in turn under
    the same key, so the ticker maps to the padded identifier of its last
    entry, not of its first. *)
Theorem last_match_wins (pre mid post : object) (k1 k2 : string) (v1 v2 : json)
    (t1 t2 : string) (c1 c2 : json) :
  ascii_table (JObj (pre ++ (k1, v1) :: mid ++ (k2, v2) :: post)) = true →
  Forall (λ kv, is_Some (entry_fields kv.2))
    (pre ++ (k1, v1) :: mid ++ (k2, v2) :: post) →
  entry_fields v1 = Some (t1, c1) →
  entry_fields v2 = Some (t2, c2) →
  upper t1 = upper t2 →
  (∀ kv, kv ∈ post → entry_key kv.2 ≠ Some (upper t2)) →
  ∃ t2c,
    get_ticker_cik_map (JObj (pre ++ (k1, v1) :: mid ++ (k2, v2) :: post)) = Ok t2c ∧
    t2c !! upper t1 = Some (zfill 10 (py_str c2)) ∧
    (zfill 10 (py_str c1) ≠ zfill 10 (py_str c2) →
     t2c !! upper t1 ≠ Some (zfill 10 (py_str c1))).
Proof.
  intros _ Hall Hv1 Hv2 Hsame Hlast.
  exists (resolved (map snd (pre ++ (k1, v1) :: mid ++ (k2, v2) :: post)) ∅).
  split; [by apply get_ticker_cik_map_entries|].
  assert (resolved (map snd (pre ++ (k1, v1) :: mid ++ (k2, v2) :: post)) ∅
            !! upper t1 = Some (zfill 10 (py_str c2))) as Hlookup.
  { rewrite Hsame.
    replace (pre ++ (k1, v1) :: mid ++ (k2, v2) :: post)
      with ((pre ++ (k1, v1) :: mid) ++ (k2, v2) :: post)
      by (by rewrite <- app_assoc).
    rewrite map_app. simpl. apply resolved_lookup_last; [done|].
    intros v' ([k' v''] & -> & Hin)%list_elem_of_fmap. by apply (Hlast (k', v'')). }
  split; [done|]. rewrite Hlookup. congruence.
Qed.

Lemma last_match_wins_witness :
  ∃ t2c, get_ticker_cik_map duplicate_table = Ok t2c ∧
         t2c !! "ACME" = Some "0000000002" ∧
         (zfill 10 (py_str (JInt 1)) ≠ zfill 10 (py_str (JInt 2)) →
          t2c !! "ACME" ≠ Some "0000000001").
Proof.
  apply (last_match_wins [] [] []
           "0" "1"
           (JObj [("cik_str", JInt 1); ("ticker", JStr "ACME"); ("title", JStr "Acme Corp")])
           (JObj [("cik_str", JInt 2); ("ticker", JStr "ACME"); ("title", JStr "Acme Inc")])
           "ACME" "ACME" (JInt 1) (JInt 2)).
  - reflexivity.
  - repeat constructor; by eexists.
  - reflexivity.
  - reflexivity.
  - reflexivity.
  - intros kv Hkv. by apply elem_of_nil in Hkv.
Defined.

(** The claim says the first of two entries with one ticker gives the
    identifier; on [duplicate_table] the second does. *)
Lemma first_match_does_not_win :
  ∃ t2c, get_ticker_cik_map duplicate_table = Ok t2c ∧
         t2c !! "ACME" = Some "0000000002" ∧
         t2c !! "ACME" ≠ Some (zfill 10 (py_str (JInt 1))).
Proof.
  eexists. split; [reflexivity|]. split; [reflexivity|]. discriminate.
Qed.

(** C8: on a table whose entries carry an ASCII ticker and an identifier,
    the resolver returns a mapping in which a ticker of the table (in
    upper case) whose identifier is a non-negative integer has the decimal
    text of that integer, left-padded with zeros to width 10; everything
    stored is the padded identifier of an entry of the table; a ticker
    that is not in the table has no entry at all, whatever the
    identifiers of the table are; and [chosen] keeps the configured
    tickers that have an entry, with their identifiers, and raises nothing
    for the others. *)
Theorem resolver_pads_and_omits (items : object) (TICKERS : list string) :
  ascii_table (JObj items) = true →
  Forall (λ kv, is_Some (entry_fields kv.2)) items →
  ∃ t2c,
    get_ticker_cik_map (JObj items) = Ok t2c ∧
    (∀ pre kv post t n,
       items = pre ++ kv :: post →
       entry_fields kv.2 = Some (t, JInt n) →
       (0 ≤ n)%Z →
       (∀ kv', kv' ∈ post → entry_key kv'.2 ≠ Some (upper t)) →
       t2c !! upper t = Some (left_pad 10 (int_str n))) ∧
    (∀ T s, t2c !! T = Some s →
       ∃ kv t c, kv ∈ items ∧ entry_fields kv.2 = Some (t, c) ∧
                 upper t = T ∧ s = zfill 10 (py_str c)) ∧
    (∀ T, (∀ kv, kv ∈ items → entry_key kv.2 ≠ Some T) → t2c !! T = None) ∧
    chosen TICKERS t2c = Ok (omap (λ t, pair t <$> t2c !! t) TICKERS).
Proof.
  intros _ Hall. exists (resolved (map snd items) ∅).
  split; [|split; [|split; [|split]]].
  - by apply get_ticker_cik_map_entries.
  - intros pre kv post t n -> Hkv Hn Hlast.
    rewrite map_app. simpl.
    rewrite (resolved_lookup_last _ _ _ t (JInt n)); [|done|].
    + f_equal. by apply zfill_int_str.
    + intros v' ([k' v''] & -> & Hin)%list_elem_of_fmap. by apply (Hlast (k', v'')).
  - intros T s Hs. apply resolved_lookup_inv in Hs as [Hs | (v & t & c & Hv & Hfields & HT & ->)].
    { by rewrite lookup_empty in Hs. }
    apply list_elem_of_fmap in Hv as (kv & -> & Hkv).
    by exists kv, t, c.
  - intros T Habsent. rewrite resolved_lookup_other; [apply lookup_empty|].
    intros v (kv & -> & Hkv)%list_elem_of_fmap. by apply Habsent.
  - apply chosen_present.
Qed.

Lemma resolver_pads_and_omits_witness :
  ∃ t2c, get_ticker_cik_map mock_response = Ok t2c ∧
         t2c !! "MSFT" = Some "0000789019" ∧
         t2c !! "TSLA" = None ∧
         chosen ["MSFT"; "TSLA"] t2c = Ok [("MSFT", "0000789019")].
Proof.
  destruct (resolver_pads_and_omits
              [("0", JObj [("cik_str", JInt 320193); ("ticker", JStr "AAPL");
                           ("title", JStr "Apple Inc.")]);
               ("1", JObj [("cik_str", JInt 789019); ("ticker", JStr "MSFT");
                           ("title", JStr "Microsoft Corp")])]
              ["MSFT"; "TSLA"])
    as (t2c & Hmap & Hpresent & _ & Habsent & Hchosen).
  - reflexivity.
  - repeat constructor; by eexists.
  - exists t2c. split; [exact Hmap|].
    assert (t2c !! "MSFT" = Some "0000789019") as Hmsft.
    { apply (Hpresent
               [("0", JObj [("cik_str", JInt 320193); ("ticker", JStr "AAPL");
                            ("title", JStr "Apple Inc.")])]
               ("1", JObj [("cik_str", JInt 789019); ("ticker", JStr "MSFT");
                           ("title", JStr "Microsoft Corp")])
               [] "MSFT" 789019%Z); [reflexivity | reflexivity | lia |].
      intros kv Hkv. by apply elem_of_nil in Hkv. }
    assert (t2c !! "TSLA" = None) as Htsla.
    { apply Habsent. intros kv Hkv.
      apply elem_of_cons in Hkv as [-> | Hkv]; [discriminate|].
      apply list_elem_of_singleton in Hkv as ->. discriminate. }
    split; [exact Hmsft|]. split; [exact Htsla|].
    rewrite Hchosen. simpl. by rewrite Hmsft, Htsla.
Defined.

(** ** The NDJSON file *)

(** Induction on a JSON value, with the hypothesis for the elements of a
    list and the values of a dict. *)
Lemma json_nested_ind (P : json → Prop) :
  P JNull →
  (∀ b, P (JBool b)) →
  (∀ n, P (JInt n)) →
  (∀ r, P (JFloat r)) →
  (∀ s, P (JStr s)) →
  (∀ xs, Forall P xs → P (JArr xs)) →
  (∀ items, Forall (λ kv, P kv.2) items → P (JObj items)) →
  ∀ v, P v.
Proof.
  intros Hnull Hbool Hint Hfloat Hstr Harr Hobj.
  fix IH 1. intros [|b|n|r|s|xs|items].
  - exact Hnull.
  - apply Hbool.
  - apply Hint.
  - apply Hfloat.
  - apply Hstr.
  - apply Harr. induction xs as [|x xs IHxs]; constructor; [apply IH | exact IHxs].
  - apply Hobj. induction items as [|[k x] items IHitems]; constructor;
      [apply IH | exact IHitems].
Qed.

Lemma has_char_app (c : ascii) (a b : string) :
  has_char c (a +:+ b) = has_char c a || has_char c b.
Proof.
  unfold has_char. induction a as [|x a IH]; [done|].
  rewrite append_cons. simpl. by rewrite IH, orb_assoc.
Qed.

Lemma json_escape_char_no_newline (c : ascii) :
  has_char newline (json_escape_char c) = false.
Proof. by destruct c as [[] [] [] [] [] [] [] []]. Qed.

Lemma json_quote_no_newline (s : string) :
  has_char newline (json_quote s) = false.
Proof.
  unfold json_quote.
  change (String double_quote (json_escape s +:+ String double_quote ""))
    with (String double_quote "" +:+ json_escape s +:+ String double_quote "").
  rewrite !has_char_app.
  assert (has_char newline (json_escape s) = false) as ->; [|done].
  induction s as [|c s IH]; [done|]. simpl.
  by rewrite has_char_app, json_escape_char_no_newline, IH.
Qed.

Lemma int_str_no_newline (n : Z) : has_char newline (int_str n) = false.
Proof.
  assert (∀ d, has_char newline (NilEmpty.string_of_uint d) = false) as Hdigits.
  { induction d; simpl; done. }
  assert (∀ d, has_char newline (NilZero.string_of_uint d) = false) as Hzero.
  { intros d. destruct d; try done; apply (Hdigits (_ d)). }
  unfold int_str, NilZero.string_of_int.
  destruct (Z.to_int n) as [d|d]; [apply Hzero|].
  change (String "-" (NilZero.string_of_uint d))
    with ("-" +:+ NilZero.string_of_uint d).
  by rewrite has_char_app, Hzero.
Qed.

Lemma float_char_not_newline (c : ascii) :
  float_char c = true → Ascii.eqb newline c = false.
Proof. destruct c as [[] [] [] [] [] [] [] []]; vm_compute; congruence. Qed.

Lemma json_float_no_newline (r : string) :
  float_text r = true → has_char newline (json_float r) = false.
Proof.
  intros Htext. unfold json_float.
  repeat (destruct (String.eqb r _); [done|]).
  unfold float_text in Htext. unfold has_char.
  induction r as [|c r IH]; [done|].
  cbn [list_ascii_of_string forallb existsb] in *.
  apply andb_true_iff in Htext as [Hc Htext].
  by rewrite (IH Htext), (float_char_not_newline c Hc).
Qed.

Lemma join_comma_no_newline (parts : list string) :
  Forall (λ p, has_char newline p = false) parts →
  has_char newline (join_comma parts) = false.
Proof.
  induction 1 as [|p parts Hp Hparts IH]; [done|].
  destruct parts as [|q parts]; [done|].
  change (join_comma (p :: q :: parts)) with (p +:+ ", " +:+ join_comma (q :: parts)).
  by rewrite !has_char_app, Hp, IH.
Qed.

(** A serialized document is one line. *)
Lemma json_dumps_no_newline (v : json) :
  json_wf v = true → has_char newline (json_dumps v) = false.
Proof.
  induction v as [|b|n|r|s|xs IH|items IH] using json_nested_ind; simpl; intros Hwf.
  - done.
  - by destruct b.
  - apply int_str_no_newline.
  - by apply json_float_no_newline.
  - apply json_quote_no_newline.
  - rewrite !has_char_app, join_comma_no_newline; [done|].
    apply Forall_fmap, Forall_forall. intros x Hx.
    rewrite Forall_forall in IH. apply (IH x Hx).
    by apply (forallb_elem_of _ _ _ Hwf).
  - rewrite !has_char_app, join_comma_no_newline; [done|].
    apply Forall_fmap, Forall_forall. intros [k x] Hx. simpl.
    rewrite !has_char_app, json_quote_no_newline.
    rewrite Forall_forall in IH. pose proof (IH (k, x) Hx) as IHx. simpl in IHx.
    rewrite IHx; [done|].
    apply (forallb_elem_of _ _ (k, x) Hwf Hx).
Qed.

Lemma split_lines_line (cur line rest : string) :
  has_char newline line = false →
  split_lines cur (line +:+ String newline rest) =
  (cur +:+ line) :: split_lines "" rest.
Proof.
  revert cur. induction line as [|c line IH]; intros cur Hline.
  - rewrite append_nil_l, append_nil_r. cbn [split_lines].
    by rewrite Ascii.eqb_refl.
  - unfold has_char in Hline. cbn [list_ascii_of_string existsb] in Hline.
    apply orb_false_iff in Hline as [Hc Hline].
    rewrite append_cons. cbn [split_lines]. rewrite Ascii.eqb_sym, Hc.
    rewrite IH by done. by rewrite append_assoc.
Qed.

Lemma write_ndjson_cons (r : json) (rows : list json) :
  write_ndjson (r :: rows) = json_dumps r +:+ String newline (write_ndjson rows).
Proof.
  unfold write_ndjson. simpl.
  assert (∀ acc, foldl (λ f r, f +:+ (json_dumps r +:+ String newline "")) acc rows =
                 acc +:+ foldl (λ f r, f +:+ (json_dumps r +:+ String newline "")) "" rows)
    as Hacc.
  { induction rows as [|r' rows IH]; intros acc; simpl.
    - by rewrite append_nil_r.
    - rewrite IH, (IH (_ +:+ _)). by rewrite append_assoc. }
  rewrite Hacc, append_nil_l, append_assoc. reflexivity.
Qed.

(** *** Reading a line back *)

Lemma append_length (a b : string) :
  String.length (a +:+ b) = String.length a + String.length b.
Proof.
  induction a as [|x a IH]; [done|]. rewrite append_cons. simpl. by rewrite IH.
Qed.

Lemma strip_prefix_app (p r : string) : strip_prefix p (p +:+ r) = Some r.
Proof.
  induction p as [|c p IH]; [done|].
  rewrite append_cons. simpl. by rewrite Ascii.eqb_refl.
Qed.

(** *** Strings *)

Lemma parse_string_escape_char (c : ascii) (text : string) :
  parse_string (json_escape_char c +:+ text) =
  '(t, r) ← parse_string text; Some (String c t, r).
Proof. destruct c as [[] [] [] [] [] [] [] []]; reflexivity. Qed.

Lemma parse_string_escape (s r : string) :
  parse_string (json_escape s +:+ String double_quote r) = Some (s, r).
Proof.
  induction s as [|c s IH]; [done|].
  cbn [json_escape]. by rewrite append_assoc, parse_string_escape_char, IH.
Qed.

Lemma parse_string_quote (s r : string) :
  strip_prefix (String double_quote "") (json_quote s +:+ r) ≫= parse_string =
  Some (s, r).
Proof.
  unfold json_quote. rewrite append_cons, append_assoc.
  change (strip_prefix (String double_quote "") (String double_quote ?x)) with (Some x).
  apply parse_string_escape.
Qed.

(** *** Numbers *)

Lemma span_chars_token (p : ascii → bool) (token r : string) :
  forallb p (list_ascii_of_string token) = true →
  match r with "" => True | String c _ => p c = false end →
  span_chars p (token +:+ r) = (token, r).
Proof.
  intros Htoken Hr. induction token as [|c token IH].
  - rewrite append_nil_l. destruct r as [|c r]; [done|]. simpl. by rewrite Hr.
  - cbn [list_ascii_of_string forallb] in Htoken.
    apply andb_true_iff in Htoken as [Hc Htoken].
    rewrite append_cons. cbn [span_chars]. by rewrite Hc, IH.
Qed.

Lemma span_number_token (token r : string) :
  forallb number_char (list_ascii_of_string token) = true →
  delimited r = true →
  span_chars number_char (token +:+ r) = (token, r).
Proof.
  intros Htoken Hr. apply span_chars_token; [done|].
  destruct r as [|c r]; [done|].
  apply andb_true_iff in Hr as [Hr _]. by apply negb_true_iff.
Qed.

Lemma uint_number_chars (d : Decimal.uint) :
  forallb number_char (list_ascii_of_string (NilEmpty.string_of_uint d)) = true.
Proof. induction d; simpl; done. Qed.

Lemma int_str_number_chars (n : Z) :
  forallb number_char (list_ascii_of_string (int_str n)) = true.
Proof.
  assert (∀ d, forallb number_char
                 (list_ascii_of_string (NilZero.string_of_uint d)) = true) as Hzero.
  { intros d. destruct d; try done; apply (uint_number_chars (_ d)). }
  unfold int_str, NilZero.string_of_int.
  destruct (Z.to_int n) as [d|d]; [apply Hzero|].
  cbn [list_ascii_of_string forallb]. by rewrite Hzero.
Qed.

Lemma int_str_read (n : Z) :
  NilZero.int_of_string (int_str n) = Some (Z.to_int n).
Proof.
  unfold int_str. apply NilZero.isi; destruct n as [|p|p]; simpl; try done.
  - intros [= Hp]. by apply (Unsigned.to_uint_nonnil p).
  - intros [= Hp]. by apply (Unsigned.to_uint_nonnil p).
Qed.

Lemma parse_number_int (n : Z) (r : string) :
  delimited r = true →
  parse_number (int_str n +:+ r) = Some (JInt n, r).
Proof.
  intros Hr. unfold parse_number.
  rewrite (span_number_token _ _ (int_str_number_chars n) Hr).
  by rewrite int_str_read, DecimalZ.of_to.
Qed.

Lemma float_canonical_dumps (t : string) :
  float_canonical t = true → json_float t = t.
Proof.
  intros Ht. unfold json_float.
  destruct (String.eqb_spec t "nan") as [->|_]; [vm_compute in Ht; discriminate Ht|].
  destruct (String.eqb_spec t "inf") as [->|_]; [vm_compute in Ht; discriminate Ht|].
  destruct (String.eqb_spec t "-inf") as [->|_]; [vm_compute in Ht; discriminate Ht|].
  done.
Qed.

Lemma parse_number_float (t r : string) :
  float_canonical t = true →
  delimited r = true →
  parse_number (t +:+ r) = Some (JFloat t, r).
Proof.
  unfold float_canonical. intros [[Hchars Hne]%andb_true_iff Hint]%andb_true_iff Hr.
  unfold parse_number. rewrite (span_number_token _ _ Hchars Hr).
  destruct (NilZero.int_of_string t); [done|].
  by destruct t.
Qed.

Lemma parse_value_minus (fuel : nat) (s : string) :
  parse_value (S fuel) (String "-" s) =
  if starts_with_char "I" s
  then r ← strip_prefix "Infinity" s; Some (JFloat "-inf", r)
  else parse_number (String "-" s).
Proof. reflexivity. Qed.

(** A text that starts with a character of a number, and not with the
    first two of [-Infinity], is read as a number. *)
Lemma parse_value_number (fuel : nat) (c : ascii) (s : string) :
  number_char c = true →
  starts_with_char "I" s = false →
  parse_value (S fuel) (String c s) = parse_number (String c s).
Proof.
  destruct c as [[] [] [] [] [] [] [] []]; intros Hc Hs; try discriminate Hc;
    try reflexivity.
  by rewrite parse_value_minus, Hs.
Qed.

Lemma number_char_not_I (c : ascii) : number_char c = true → Ascii.eqb "I" c = false.
Proof. destruct c as [[] [] [] [] [] [] [] []]; vm_compute; congruence. Qed.

Lemma parse_value_token (fuel : nat) (token r : string) :
  forallb number_char (list_ascii_of_string token) = true →
  token ≠ "" →
  delimited r = true →
  parse_value (S fuel) (token +:+ r) = parse_number (token +:+ r).
Proof.
  destruct token as [|c token]; [done|]. intros Hchars _ Hr.
  cbn [list_ascii_of_string forallb] in Hchars.
  apply andb_true_iff in Hchars as [Hc Hchars].
  rewrite append_cons. apply parse_value_number; [done|].
  destruct token as [|c' token].
  - rewrite append_nil_l. destruct r as [|x r]; [done|].
    apply andb_true_iff in Hr as [_ Hx]. apply negb_true_iff in Hx.
    cbn [starts_with_char]. by rewrite Ascii.eqb_sym.
  - cbn [list_ascii_of_string forallb] in Hchars.
    apply andb_true_iff in Hchars as [Hc' _].
    rewrite append_cons. by apply number_char_not_I.
Qed.

Lemma int_str_nonempty (n : Z) : int_str n ≠ "".
Proof.
  intros Hn. pose proof (int_str_read n) as Hread. by rewrite Hn in Hread.
Qed.

(** *** Values *)

Lemma parse_value_string (fuel : nat) (s : string) :
  parse_value (S fuel) (String double_quote s) =
  '(text, r) ← parse_string s; Some (JStr text, r).
Proof. reflexivity. Qed.

Lemma parse_value_array (fuel : nat) (s : string) :
  parse_value (S fuel) (String "[" s) =
  if starts_with_char "]" s then Some (JArr [], tail_string s)
  else '(xs, r) ← parse_elements fuel s; Some (JArr xs, r).
Proof. reflexivity. Qed.

Lemma parse_value_object (fuel : nat) (s : string) :
  parse_value (S fuel) (String "{" s) =
  if starts_with_char "}" s then Some (JObj [], tail_string s)
  else '(items, r) ← parse_members fuel s; Some (JObj items, r).
Proof. reflexivity. Qed.

Lemma parse_elements_S (fuel : nat) (s : string) :
  parse_elements (S fuel) s =
  '(x, rest) ← parse_value fuel s;
  if starts_with_char "]" rest then Some ([x], tail_string rest)
  else rest' ← strip_prefix ", " rest;
       '(xs, r) ← parse_elements fuel rest';
       Some (x :: xs, r).
Proof. reflexivity. Qed.

Lemma parse_members_S (fuel : nat) (s : string) :
  parse_members (S fuel) (String double_quote s) =
  '(k, rest) ← parse_string s;
  rest' ← strip_prefix ": " rest;
  '(x, rest'') ← parse_value fuel rest';
  if starts_with_char "}" rest'' then Some ([(k, x)], tail_string rest'')
  else rest''' ← strip_prefix ", " rest'';
       '(items, r) ← parse_members fuel rest''';
       Some ((k, x) :: items, r).
Proof. reflexivity. Qed.

Lemma json_quote_app (s r : string) :
  json_quote s +:+ r = String double_quote (json_escape s +:+ String double_quote r).
Proof. unfold json_quote. by rewrite append_cons, append_assoc. Qed.

Lemma number_char_not_bracket (c : ascii) :
  number_char c = true → Ascii.eqb "]" c = false.
Proof. destruct c as [[] [] [] [] [] [] [] []]; vm_compute; congruence. Qed.

(** The text of a value is not empty and does not start with a closing
    bracket. *)
Lemma float_repr_cases (t : string) :
  float_repr t = true →
  t = "nan" ∨ t = "inf" ∨ t = "-inf" ∨ float_canonical t = true.
Proof.
  unfold float_repr. intros [[[Ht|Ht]%orb_true_iff|Ht]%orb_true_iff|Ht]%orb_true_iff.
  - left. by apply String.eqb_eq.
  - right. left. by apply String.eqb_eq.
  - right. right. left. by apply String.eqb_eq.
  - by right; right; right.
Qed.

Lemma json_dumps_head (v : json) (r : string) :
  json_repr v = true →
  starts_with_char "]" (json_dumps v +:+ r) = false.
Proof.
  assert (∀ token, forallb number_char (list_ascii_of_string token) = true →
                   token ≠ "" → starts_with_char "]" (token +:+ r) = false) as Htoken.
  { intros [|c token] Hchars Hne; [done|].
    cbn [list_ascii_of_string forallb] in Hchars.
    apply andb_true_iff in Hchars as [Hc _].
    rewrite append_cons. by apply number_char_not_bracket. }
  destruct v as [|[]|n|t|s|xs|items]; cbn [json_dumps json_repr]; intros Hv; try done.
  - apply Htoken; [apply int_str_number_chars | apply int_str_nonempty].
  - apply float_repr_cases in Hv as [->|[->|[->|Hv]]]; [done..|].
    rewrite (float_canonical_dumps _ Hv).
    unfold float_canonical in Hv.
    apply andb_true_iff in Hv as [[Hchars Hne]%andb_true_iff _].
    apply Htoken; [done|]. intros ->. done.
Qed.

Lemma join_comma_cons (p q : string) (parts : list string) :
  join_comma (p :: q :: parts) = p +:+ ", " +:+ join_comma (q :: parts).
Proof. reflexivity. Qed.

Lemma parse_elements_dumps (xs : list json) :
  xs ≠ [] →
  Forall reads_back xs →
  ∀ fuel r,
    String.length (join_comma (map json_dumps xs)) < fuel →
    parse_elements fuel (join_comma (map json_dumps xs) +:+ "]" +:+ r) = Some (xs, r).
Proof.
  intros Hne Hall. induction Hall as [|x xs Hx Hxs IH]; [done|]. clear Hne.
  intros [|fuel] r Hfuel; [lia|]. rewrite parse_elements_S.
  destruct xs as [|y ys].
  - simpl in *. rewrite (Hx fuel ("]" +:+ r)) by (done || reflexivity || lia). done.
  - rewrite map_cons, (map_cons _ y), join_comma_cons in *.
    rewrite !append_length in Hfuel.
    rewrite !append_assoc.
    rewrite (Hx fuel) by (done || reflexivity || lia).
    cbn [mbind option_bind]. 
    change (starts_with_char "]" (", " +:+ ?z)) with false. cbv iota.
    rewrite strip_prefix_app. cbn [mbind option_bind].
    rewrite IH by (done || simpl in *; lia). done.
Qed.

Lemma parse_members_dumps (items : list (string * json)) :
  items ≠ [] →
  Forall (λ kv, reads_back kv.2) items →
  ∀ fuel r,
    String.length (join_comma (map member_text items)) < fuel →
    parse_members fuel (join_comma (map member_text items) +:+ "}" +:+ r) =
    Some (items, r).
Proof.
  intros Hne Hall. induction Hall as [|[k x] items Hx Hitems IH]; [done|]. clear Hne.
  intros [|fuel] r Hfuel; [lia|]. simpl in Hx.
  destruct items as [|kv items].
  - change (join_comma (map member_text [(k, x)]))
      with (json_quote k +:+ ": " +:+ json_dumps x) in *.
    rewrite !append_length in Hfuel. cbn [String.length] in Hfuel.
    rewrite !append_assoc, json_quote_app, parse_members_S, parse_string_escape.
    cbn [mbind option_bind]. rewrite strip_prefix_app. cbn [mbind option_bind].
    rewrite (Hx fuel ("}" +:+ r)) by (done || reflexivity || lia). done.
  - rewrite map_cons, (map_cons _ kv), join_comma_cons in *.
    change (member_text (k, x)) with (json_quote k +:+ ": " +:+ json_dumps x) in *.
    rewrite !append_length in Hfuel. cbn [String.length] in Hfuel.
    rewrite !append_assoc, json_quote_app, parse_members_S, parse_string_escape.
    cbn [mbind option_bind]. rewrite strip_prefix_app. cbn [mbind option_bind].
    rewrite (Hx fuel) by (done || reflexivity || lia).
    cbn [mbind option_bind].
    change (starts_with_char "}" (", " +:+ ?z)) with false. cbv iota.
    rewrite strip_prefix_app. cbn [mbind option_bind].
    rewrite IH by (done || reflexivity || lia). done.
Qed.

Lemma json_quote_length (s : string) : 2 ≤ String.length (json_quote s).
Proof. unfold json_quote. simpl. rewrite append_length. simpl. lia. Qed.

Lemma bracket_app (c : ascii) (a r : string) :
  (String c "" +:+ a) +:+ r = String c (a +:+ r).
Proof. reflexivity. Qed.

(** Every value whose floats are the text of a float is read back from
    its text, the three floats without a JSON literal included. *)
Lemma parse_value_dumps (v : json) : json_repr v = true → reads_back v.
Proof.
  induction v as [|b|n|t|s|xs IH|items IH] using json_nested_ind;
    intros Hv fuel r Hfuel Hr; cbn [json_dumps json_repr] in *.
  - destruct fuel; [simpl in Hfuel; lia | done].
  - destruct fuel; [destruct b; simpl in Hfuel; lia | by destruct b].
  - destruct fuel.
    { pose proof (int_str_nonempty n). destruct (int_str n); [done | simpl in Hfuel; lia]. }
    rewrite parse_value_token
      by (apply int_str_number_chars || apply int_str_nonempty || done).
    by apply parse_number_int.
  - apply float_repr_cases in Hv as [->|[->|[->|Hv]]].
    + destruct fuel; [simpl in Hfuel; lia | done].
    + destruct fuel; [simpl in Hfuel; lia | done].
    + destruct fuel; [simpl in Hfuel; lia | done].
    + rewrite (float_canonical_dumps _ Hv) in *.
      pose proof Hv as Hcanon. unfold float_canonical in Hv.
      apply andb_true_iff in Hv as [[Hchars Hne]%andb_true_iff _].
      assert (t ≠ "") as Hne' by (by intros ->).
      destruct fuel; [destruct t; [done | simpl in Hfuel; lia]|].
      rewrite parse_value_token by done. by apply parse_number_float.
  - destruct fuel; [pose proof (json_quote_length s); lia|].
    by rewrite json_quote_app, parse_value_string, parse_string_escape.
  - rewrite !append_length in Hfuel. cbn [String.length] in Hfuel.
    destruct fuel; [lia|].
    rewrite bracket_app, parse_value_array.
    destruct xs as [|x xs]; [done|].
    assert (starts_with_char "]"
              ((join_comma (map json_dumps (x :: xs)) +:+ "]") +:+ r) = false) as ->.
    { apply andb_true_iff in Hv as [Hx _].
      destruct xs as [|y ys].
      - simpl. rewrite append_assoc. by apply json_dumps_head.
      - rewrite map_cons, (map_cons _ y), join_comma_cons, !append_assoc.
        by apply json_dumps_head. }
    rewrite append_assoc, parse_elements_dumps; [done|done| |lia].
    apply Forall_forall. intros y Hy. rewrite Forall_forall in IH.
    apply (IH y Hy). by apply (forallb_elem_of _ _ _ Hv).
  - rewrite !append_length in Hfuel. cbn [String.length] in Hfuel.
    destruct fuel; [lia|].
    rewrite bracket_app, parse_value_object.
    change (map (λ '(k, x), json_quote k +:+ ": " +:+ json_dumps x) items)
      with (map member_text items) in *.
    destruct items as [|[k x] items]; [done|].
    assert (starts_with_char "}"
              ((join_comma (map member_text ((k, x) :: items)) +:+ "}") +:+ r) = false) as ->.
    { destruct items as [|kv items].
      - change (join_comma (map member_text [(k, x)]))
          with (json_quote k +:+ ": " +:+ json_dumps x).
        by rewrite !append_assoc, json_quote_app.
      - rewrite map_cons, (map_cons _ kv), join_comma_cons.
        change (member_text (k, x)) with (json_quote k +:+ ": " +:+ json_dumps x).
        by rewrite !append_assoc, json_quote_app. }
    rewrite append_assoc, parse_members_dumps; [done|done| |lia].
    apply Forall_forall. intros [k' y] Hy. rewrite Forall_forall in IH.
    apply (IH (k', y) Hy). apply (forallb_elem_of _ _ (k', y) Hv Hy).
Qed.

Lemma json_loads_dumps (v : json) :
  json_repr v = true → json_loads (json_dumps v) = Some v.
Proof.
  intros Hv. unfold json_loads.
  rewrite <- (append_nil_r (json_dumps v)) at 2.
  rewrite (parse_value_dumps v Hv); [done | lia | done].
Qed.

(** The file has one line per row, the serialization of that row. *)
Lemma split_lines_write_ndjson (rows : list json) :
  Forall (λ r, json_wf r = true) rows →
  split_lines "" (write_ndjson rows) = map json_dumps rows.
Proof.
  induction 1 as [|r rows Hr Hwf IH]; [done|].
  rewrite write_ndjson_cons, split_lines_line by by apply json_dumps_no_newline.
  by rewrite append_nil_l, IH.
Qed.

Lemma number_char_float_char (c : ascii) : number_char c = true → float_char c = true.
Proof. destruct c as [[] [] [] [] [] [] [] []]; vm_compute; congruence. Qed.



Lemma json_canonical_repr (v : json) : json_canonical v = true → json_repr v = true.
Proof.
  induction v as [|b|n|r|s|xs IH|items IH] using json_nested_ind;
    cbn [json_canonical json_repr]; try done.
  - unfold float_repr. intros ->. by rewrite !orb_true_r.
  - rewrite !forallb_forall. intros Hxs x Hx. rewrite Forall_forall in IH.
    apply (IH x); [by apply list_elem_of_In | by apply Hxs].
  - rewrite !forallb_forall. intros Hitems [k x] Hx. rewrite Forall_forall in IH.
    apply (IH (k, x)); [by apply list_elem_of_In | by apply (Hitems (k, x))].
Qed.





(** * Further properties *)

(** ** The outcome of the walk on any document *)

(** A loop whose body either raises or appends stops at the first element
    that raises. *)
Lemma for_each_first_failure {A B : Type} (fail : A → option exn) (f : A → list B)
    (xs : list A) (body : A → list B → result (list B)) (s : list B) :
  (∀ x, x ∈ xs → ∀ t,
     body x t = match fail x with Some e => Raise e | None => Ok (t ++ f x) end) →
  for_each xs body s =
  match first_failure fail xs with
  | Some e => Raise e
  | None => Ok (s ++ flat_map f xs)
  end.
Proof.
  revert s. induction xs as [|x xs IH]; intros s Hbody; simpl.
  - by rewrite app_nil_r.
  - rewrite (Hbody x) by left. destruct (fail x) as [e|]; simpl; [done|].
    rewrite IH by (intros y Hy; apply Hbody; by right).
    destruct (first_failure fail xs); [done|]. by rewrite app_assoc.
Qed.

Section outcome.
Variables cik ticker : string.

Lemma observation_step_outcome concept unit (ob : json) rows :
  observation_step cik ticker concept unit ob rows =
  match observation_failure ob with
  | Some e => Raise e
  | None => Ok (rows ++ observation_rows cik ticker (concept, unit, ob))
  end.
Proof.
  destruct ob as [| | | | | |o]; try done. apply observation_step_dict.
Qed.

Lemma unit_step_outcome concept (item : string * json) rows :
  unit_step cik ticker concept item rows =
  match unit_failure item with
  | Some e => Raise e
  | None => Ok (rows ++ flat_map (observation_rows cik ticker)
                          (unit_observations concept item))
  end.
Proof.
  destruct item as [unit arr]. unfold unit_step, unit_failure, unit_observations.
  destruct arr as [| | | |s|obs|items]; simpl; try done.
  - destruct s as [|c s]; simpl; [by rewrite app_nil_r | done].
  - rewrite flat_map_map. apply for_each_first_failure.
    intros ob _ t. apply observation_step_outcome.
  - destruct items as [|[k v] items]; simpl; [by rewrite app_nil_r | done].
Qed.

Lemma fact_step_outcome concepts namespace (item : string * json) rows :
  fact_step cik ticker concepts namespace item rows =
  match fact_failure concepts namespace item with
  | Some e => Raise e
  | None => Ok (rows ++ flat_map (observation_rows cik ticker)
                          (fact_observations concepts namespace item))
  end.
Proof.
  destruct item as [fact body]. unfold fact_step, fact_failure, fact_observations.
  simpl. destruct (str_in _ concepts); simpl; [|by rewrite app_nil_r].
  destruct body as [| | | | | |b]; try done. simpl.
  destruct (obj_lookup "units" b) as [units|]; simpl; [|by rewrite app_nil_r].
  destruct units as [| | | | | |units]; try done. simpl.
  rewrite flat_map_flat_map. apply for_each_first_failure.
  intros item _ t. apply unit_step_outcome.
Qed.

Lemma namespace_step_outcome concepts (item : string * json) rows :
  namespace_step cik ticker concepts item rows =
  match namespace_failure concepts item with
  | Some e => Raise e
  | None => Ok (rows ++ flat_map (observation_rows cik ticker)
                          (namespace_observations concepts item))
  end.
Proof.
  destruct item as [namespace nf]. unfold namespace_failure, namespace_observations.
  simpl. destruct nf as [| | | | | |facts]; try by rewrite app_nil_r.
  rewrite flat_map_flat_map. apply for_each_first_failure.
  intros item _ t. apply fact_step_outcome.
Qed.

Lemma walk_outcome concepts (all_facts : object) rows :
  for_each all_facts (namespace_step cik ticker concepts) rows =
  match document_failure concepts all_facts with
  | Some e => Raise e
  | None => Ok (rows ++ flat_map (observation_rows cik ticker)
                          (selected_observations concepts all_facts))
  end.
Proof.
  unfold document_failure, selected_observations. rewrite flat_map_flat_map.
  apply for_each_first_failure. intros item _ t. apply namespace_step_outcome.
Qed.
End outcome.

(** X1: [normalize_companyfacts] raises exactly when a concept of the
    effective list has a body that is not a dict, a ["units"] that is not
    a dict, a unit whose value cannot be iterated ([TypeError]) or an
    observation that is not a dict ([AttributeError] for all the others);
    the first such place in document order gives the exception, and no row
    is returned.  Otherwise it returns the rows of the selected
    observations. *)
Theorem normalize_outcome (cik ticker : string) (top all_facts : object) :
  obj_lookup "facts" top = Some (JObj all_facts) →
  normalize_companyfacts cik ticker (JObj top) =
  match document_failure (effective_concepts (available_concepts all_facts)) all_facts with
  | Some e => Raise e
  | None =>
      Ok (flat_map (observation_rows cik ticker)
            (selected_observations (effective_concepts (available_concepts all_facts))
               all_facts))
  end.
Proof.
  intros Hfacts. rewrite (normalize_companyfacts_walk _ _ _ _ Hfacts).
  apply walk_outcome.
Qed.

Lemma normalize_outcome_witness :
  normalize_companyfacts "0000320193" "AAPL" (JObj [("facts", JObj broken_namespaces)]) =
    Raise TypeError ∧
  normalize_companyfacts "0000320193" "AAPL"
    (JObj [("facts", JObj [("us-gaap", JObj [("GrossProfit", JArr []); ("Assets", JNull)])])]) =
    Raise AttributeError.
Proof.
  split.
  - apply (normalize_outcome "0000320193" "AAPL"
             [("facts", JObj broken_namespaces)] broken_namespaces eq_refl).
  - rewrite (normalize_outcome "0000320193" "AAPL"
               [("facts", JObj [("us-gaap", JObj [("GrossProfit", JArr []);
                                                  ("Assets", JNull)])])]
               [("us-gaap", JObj [("GrossProfit", JArr []); ("Assets", JNull)])]
               eq_refl).
    reflexivity.
Defined.

Lemma normalize_companyfacts_inv (cik ticker : string) (facts : json) (rows : list Row) :
  normalize_companyfacts cik ticker facts = Ok rows →
  rows = [] ∨
  ∃ top all_facts,
    facts = JObj top ∧ obj_lookup "facts" top = Some (JObj all_facts) ∧
    rows = flat_map (observation_rows cik ticker)
             (selected_observations (effective_concepts (available_concepts all_facts))
                all_facts).
Proof.
  destruct facts as [| | | | | |top]; try done.
  unfold normalize_companyfacts. simpl.
  destruct (obj_lookup "facts" top) as [v|] eqn:Hv; simpl; [|intros [= <-]; by left].
  destruct (py_truthy v) eqn:Htruthy; simpl; [|intros [= <-]; by left].
  destruct v as [| | | | | |all_facts]; try done. simpl.
  rewrite walk_outcome.
  destruct (document_failure _ all_facts); [done|]. intros [= <-].
  right. by exists top, all_facts.
Qed.

(** X2: every row of the output carries the company identifier and the
    ticker the function was called with and a period marker that is not
    empty, and is the row of an observation dict of a selected concept of
    the document. *)
Theorem rows_carry_company (cik ticker : string) (facts : json) (rows : list Row)
    (r : Row) :
  normalize_companyfacts cik ticker facts = Ok rows →
  r ∈ rows →
  row_cik r = cik ∧ row_ticker r = ticker ∧
  py_truthy (row_period_end_date r) = true ∧
  ∃ top all_facts o,
    facts = JObj top ∧ obj_lookup "facts" top = Some (JObj all_facts) ∧
    (row_concept r, row_unit r, JObj o) ∈
      selected_observations (effective_concepts (available_concepts all_facts)) all_facts ∧
    period_marker o = Some (row_period_end_date r) ∧
    r = fact_row cik ticker (row_concept r) (row_unit r) o (row_period_end_date r).
Proof.
  intros Hrows Hr.
  apply normalize_companyfacts_inv in Hrows as [-> | (top & all_facts & -> & Hfacts & ->)].
  { by apply elem_of_nil in Hr. }
  apply list_elem_of_In, in_flat_map in Hr as ([[concept unit] ob] & Hsel & Hr).
  apply list_elem_of_In in Hsel.
  unfold observation_rows in Hr. destruct ob as [| | | | | |o]; try done.
  destruct (period_marker o) as [p|] eqn:Hp; [|done].
  destruct Hr as [<- | []]. simpl.
  split; [done|]. split; [done|]. split.
  - unfold period_marker in Hp.
    destruct (py_truthy (field o "end")) eqn:Hend; [by injection Hp as <-|].
    destruct (py_truthy (field o "fy")) eqn:Hfy; [by injection Hp as <-|done].
  - by exists top, all_facts, o.
Qed.

Lemma rows_carry_company_witness :
  row_cik (fact_row "0000320193" "AAPL" "us-gaap:Revenues" "USD" revenues_observation
             (JStr "2023-12-31")) = "0000320193" ∧
  row_ticker (fact_row "0000320193" "AAPL" "us-gaap:Revenues" "USD" revenues_observation
                (JStr "2023-12-31")) = "AAPL" ∧
  py_truthy (row_period_end_date
               (fact_row "0000320193" "AAPL" "us-gaap:Revenues" "USD" revenues_observation
                  (JStr "2023-12-31"))) = true.
Proof.
  destruct (rows_carry_company "0000320193" "AAPL" facts_data
              [fact_row "0000320193" "AAPL" "us-gaap:Revenues" "USD" revenues_observation
                 (JStr "2023-12-31")]
              (fact_row "0000320193" "AAPL" "us-gaap:Revenues" "USD" revenues_observation
                 (JStr "2023-12-31")) eq_refl)
    as (Hcik & Hticker & Hmarker & _).
  - apply elem_of_cons. by left.
  - by repeat split.
Defined.

Lemma first_failure_app {A : Type} (fail : A → option exn) (xs ys : list A) :
  first_failure fail (xs ++ ys) =
  match first_failure fail xs with
  | Some e => Some e
  | None => first_failure fail ys
  end.
Proof.
  induction xs as [|x xs IH]; simpl; [done|]. by destruct (fail x).
Qed.

(** X3: the body of a concept outside the effective list is never looked
    at: whatever stands there, the outcome, rows or exception, is the
    same. *)
Theorem unselected_body_ignored (cik ticker : string) (top top' pre post fpre fpost : object)
    (namespace fact : string) (body body' : json) :
  obj_lookup "facts" top =
    Some (JObj (pre ++ (namespace, JObj (fpre ++ (fact, body) :: fpost)) :: post)) →
  obj_lookup "facts" top' =
    Some (JObj (pre ++ (namespace, JObj (fpre ++ (fact, body') :: fpost)) :: post)) →
  concept_name namespace fact ∉
    effective_concepts
      (available_concepts
         (pre ++ (namespace, JObj (fpre ++ (fact, body) :: fpost)) :: post)) →
  normalize_companyfacts cik ticker (JObj top) =
  normalize_companyfacts cik ticker (JObj top').
Proof.
  intros Htop Htop' Hout.
  assert (available_concepts
            (pre ++ (namespace, JObj (fpre ++ (fact, body') :: fpost)) :: post) =
          available_concepts
            (pre ++ (namespace, JObj (fpre ++ (fact, body) :: fpost)) :: post)) as Havail.
  { rewrite !available_concepts_flat_map, !flat_map_app.
    cbn [flat_map]. unfold namespace_concepts at 2 5.
    cbn [fst snd]. by rewrite !map_app. }
  rewrite (normalize_companyfacts_walk _ _ _ _ Htop),
    (normalize_companyfacts_walk _ _ _ _ Htop'), !walk_outcome, Havail.
  apply str_in_not_elem_of in Hout.
  set (concepts := effective_concepts _) in *.
  assert (document_failure concepts
            (pre ++ (namespace, JObj (fpre ++ (fact, body') :: fpost)) :: post) =
          document_failure concepts
            (pre ++ (namespace, JObj (fpre ++ (fact, body) :: fpost)) :: post)) as ->.
  { unfold document_failure. rewrite !first_failure_app.
    cbn [first_failure]. unfold namespace_failure at 2 5.
    cbn [fst snd]. rewrite !first_failure_app.
    cbn [first_failure]. unfold fact_failure at 2 5.
    cbn [fst snd]. by rewrite Hout. }
  assert (selected_observations concepts
            (pre ++ (namespace, JObj (fpre ++ (fact, body') :: fpost)) :: post) =
          selected_observations concepts
            (pre ++ (namespace, JObj (fpre ++ (fact, body) :: fpost)) :: post)) as ->.
  { unfold selected_observations. rewrite !flat_map_app.
    cbn [flat_map]. unfold namespace_observations at 2 5.
    cbn [fst snd]. rewrite !flat_map_app.
    cbn [flat_map]. unfold fact_observations at 2 5.
    cbn [fst snd]. by rewrite Hout. }
  done.
Qed.

Lemma unselected_body_ignored_witness :
  normalize_companyfacts "0000320193" "AAPL"
    (JObj [("facts", JObj [("us-gaap", JObj [("Revenues", JObj []); ("Assets", JNull)])])]) =
  normalize_companyfacts "0000320193" "AAPL"
    (JObj [("facts", JObj [("us-gaap", JObj [("Revenues", JObj []); ("Assets", JObj [])])])]).
Proof.
  apply (unselected_body_ignored "0000320193" "AAPL" [("facts", _)] [("facts", _)]
           [] [] [("Revenues", JObj [])] [] "us-gaap" "Assets" JNull (JObj [])
           eq_refl eq_refl).
  apply str_in_not_elem_of. reflexivity.
Defined.

(** X4: a document that is not a dict, or whose ["facts"] is a non-empty
    value other than a dict, makes [normalize_companyfacts] raise
    [AttributeError]; any empty value under ["facts"] (null, false, zero,
    an empty string, list or dict) gives no row and no exception. *)
Theorem top_level_outcomes (cik ticker : string) (facts : json) :
  (is_dict facts = false →
   normalize_companyfacts cik ticker facts = Raise AttributeError) ∧
  (∀ top v, facts = JObj top → obj_lookup "facts" top = Some v →
     py_truthy v = false →
     normalize_companyfacts cik ticker facts = Ok []) ∧
  (∀ top v, facts = JObj top → obj_lookup "facts" top = Some v →
     py_truthy v = true → is_dict v = false →
     normalize_companyfacts cik ticker facts = Raise AttributeError).
Proof.
  split; [|split].
  - by destruct facts.
  - intros top v -> Hv Hfalse. unfold normalize_companyfacts. simpl.
    by rewrite Hv; simpl; rewrite Hfalse.
  - intros top v -> Hv Htrue Hdict. unfold normalize_companyfacts. simpl.
    rewrite Hv. simpl. rewrite Htrue. by destruct v.
Qed.

(** ** The fallback list *)

Lemma elem_of_take_filter (n : nat) (p : string → bool) (l : list string) (c : string) :
  c ∈ take n (List.filter p l) → c ∈ l ∧ p c = true.
Proof.
  intros Hc. apply (subseteq_take n) in Hc.
  by apply list_elem_of_In, filter_In in Hc as [?%list_elem_of_In ?].
Qed.

(** X5: when none of the preferred concepts is available, the effective
    list holds available concepts only, at most five of them, and is empty
    only when the document offers no concept at all. *)
Theorem fallback_concepts_bounds (available : list string) :
  (∀ c, c ∈ preferred_concepts → c ∉ available) →
  (∀ c, c ∈ effective_concepts available → c ∈ available) ∧
  length (effective_concepts available) ≤ 5 ∧
  (available ≠ [] → effective_concepts available ≠ []).
Proof.
  intros Hnone. apply original_concept_count_zero in Hnone.
  unfold effective_concepts. rewrite Hnone. simpl.
  set (revenue := take 2 (List.filter (matches_any ["revenue"; "sales"]) available)).
  set (income := take 2 (List.filter (matches_any ["income"; "earnings"]) available)).
  assert (length (revenue ++ income) ≤ 4) as Hlen.
  { rewrite length_app. unfold revenue, income. rewrite !length_take. lia. }
  assert (∀ c, c ∈ revenue ++ income → c ∈ available) as Hin.
  { intros c [Hc|Hc]%elem_of_app; by apply elem_of_take_filter in Hc as [? _]. }
  destruct (revenue ++ income) as [|c cs] eqn:Hcand.
  - split; [|split].
    + intros c Hc. by apply (subseteq_take 5).
    + rewrite length_take. lia.
    + intros Hne. by destruct available.
  - split; [done|]. split; [lia|done].
Qed.

Lemma fallback_concepts_bounds_witness :
  length (effective_concepts (available_concepts ifrs_namespaces)) ≤ 5 ∧
  effective_concepts (available_concepts ifrs_namespaces) ≠ [].
Proof.
  destruct (fallback_concepts_bounds (available_concepts ifrs_namespaces))
    as (_ & Hlen & Hne).
  - apply original_concept_count_zero. reflexivity.
  - split; [exact Hlen|]. apply Hne. discriminate.
Defined.

(** ** The resolver on any table *)

Lemma resolver_step_outcome (v : json) (t2c : gmap string string) :
  resolver_step v t2c =
  match entry_failure v with
  | Some e => Raise e
  | None => Ok (resolved [v] t2c)
  end.
Proof.
  unfold resolver_step, entry_failure, resolved, entry_fields.
  destruct v as [| | | | | |o]; try done. simpl.
  destruct (obj_lookup "ticker" o) as [[| | | |s| |]|]; try done. simpl.
  by destruct (obj_lookup "cik_str" o).
Qed.

Lemma resolver_loop_outcome (values : list json) (t2c : gmap string string) :
  for_each values resolver_step t2c =
  match first_failure entry_failure values with
  | Some e => Raise e
  | None => Ok (resolved values t2c)
  end.
Proof.
  revert t2c. induction values as [|v values IH]; intros t2c; [done|].
  rewrite for_each_cons, resolver_step_outcome. simpl.
  destruct (entry_failure v); simpl; [done|]. by rewrite IH.
Qed.

(** X6: [get_ticker_cik_map] raises exactly when the table is not a dict
    ([AttributeError]) or one of its entries is not a dict ([TypeError]),
    has no ["ticker"] or no ["cik_str"] ([KeyError]), or has a ticker that
    is not a string ([AttributeError]); the first such entry gives the
    exception and no mapping is returned, however many entries were
    stored before.  Without such an entry it returns a mapping, which for
    a table of ASCII tickers is the one built from all the entries. *)
Theorem get_ticker_cik_map_outcome (data : json) :
  (is_dict data = false → get_ticker_cik_map data = Raise AttributeError) ∧
  (∀ items e, data = JObj items →
     first_failure entry_failure (map snd items) = Some e →
     get_ticker_cik_map data = Raise e) ∧
  (∀ items, data = JObj items →
     first_failure entry_failure (map snd items) = None →
     ∃ t2c, get_ticker_cik_map data = Ok t2c ∧
            (ascii_table data = true → t2c = resolved (map snd items) ∅)).
Proof.
  split; [by destruct data|]. split.
  - intros items e -> Hfail. unfold get_ticker_cik_map. simpl.
    by rewrite resolver_loop_outcome, Hfail.
  - intros items -> Hfail. exists (resolved (map snd items) ∅). split; [|done].
    unfold get_ticker_cik_map. simpl. by rewrite resolver_loop_outcome, Hfail.
Qed.

(** ** Keys and values of the resolved mapping *)

Lemma ascii_upper_idemp (c : ascii) : ascii_upper (ascii_upper c) = ascii_upper c.
Proof. by destruct c as [[] [] [] [] [] [] [] []]. Qed.

Lemma upper_idemp (s : string) : upper (upper s) = upper s.
Proof.
  induction s as [|c s IH]; [done|]. simpl. by rewrite ascii_upper_idemp, IH.
Qed.

Lemma zeros_length (n : nat) : String.length (zeros n) = n.
Proof. induction n as [|n IH]; [done|]. simpl. by rewrite IH. Qed.

Lemma zfill_length (width : nat) (s : string) :
  String.length (zfill width s) = Nat.max width (String.length s).
Proof.
  unfold zfill. destruct s as [|c rest].
  - rewrite zeros_length. simpl. lia.
  - destruct (Ascii.eqb c "+" || Ascii.eqb c "-").
    + cbn [String.length]. rewrite append_length, zeros_length.
      cbn [String.length]. lia.
    + rewrite append_length, zeros_length. cbn [String.length]. lia.
Qed.

(** Text that is wide enough is left as it is. *)
Lemma zfill_wide (width : nat) (s : string) :
  width ≤ String.length s → zfill width s = s.
Proof.
  intros Hwide. unfold zfill.
  replace (width - String.length s) with 0 by lia.
  destruct s as [|c rest]; [done|].
  by destruct (Ascii.eqb c "+" || Ascii.eqb c "-").
Qed.

Lemma resolver_step_invariant (P : string → string → Prop) (v : json)
    (t2c t2c' : gmap string string) :
  (∀ t s, P (upper t) (zfill 10 s)) →
  map_Forall P t2c →
  resolver_step v t2c = Ok t2c' →
  map_Forall P t2c'.
Proof.
  intros HP Hall. rewrite resolver_step_outcome.
  destruct (entry_failure v); [done|]. intros [= <-].
  unfold resolved. simpl. destruct (entry_fields v) as [[t c]|]; [|done].
  by apply map_Forall_insert_2.
Qed.

Lemma get_ticker_cik_map_forall (P : string → string → Prop) (data : json)
    (t2c : gmap string string) :
  (∀ t s, P (upper t) (zfill 10 s)) →
  get_ticker_cik_map data = Ok t2c →
  map_Forall P t2c.
Proof.
  intros HP Hmap. destruct data as [| | | | | |items]; try done.
  unfold get_ticker_cik_map in Hmap. simpl in Hmap.
  revert Hmap. apply for_each_invariant; [|apply map_Forall_empty].
  intros x m m' _. by apply resolver_step_invariant.
Qed.

(** X7: every key of the mapping [get_ticker_cik_map] returns is in upper
    case and every value has at least 10 characters, so that the
    [str(cik).zfill(10)] of [main] leaves it as it is. *)
Theorem resolver_map_invariant (data : json) (t2c : gmap string string)
    (k v : string) :
  get_ticker_cik_map data = Ok t2c →
  t2c !! k = Some v →
  upper k = k ∧ 10 ≤ String.length v ∧ zfill 10 v = v.
Proof.
  intros Hmap Hk.
  assert (map_Forall (λ k v, upper k = k ∧ 10 ≤ String.length v) t2c) as Hall.
  { apply (get_ticker_cik_map_forall _ data); [|done].
    intros t s. split; [apply upper_idemp|]. rewrite zfill_length. lia. }
  destruct (Hall k v Hk) as [Hupper Hlen].
  split; [done|]. split; [done|]. by apply zfill_wide.
Qed.

Lemma resolver_map_invariant_witness :
  upper "MSFT" = "MSFT" ∧ 10 ≤ String.length "0000789019" ∧
  zfill 10 "0000789019" = "0000789019".
Proof.
  apply (resolver_map_invariant mock_response
           (<["MSFT" := "0000789019"]> (<["AAPL" := "0000320193"]> ∅))
           "MSFT" "0000789019"); reflexivity.
Defined.

(** ** The submission flattening on parallel lists *)

Lemma flat_map_singleton {A B : Type} (g : A → B) (l : list A) :
  flat_map (λ x, [g x]) l = map g l.
Proof. induction l as [|x l IH]; [done|]. simpl. by rewrite IH. Qed.

Section flatten.
Variables (cik t : string) (company : json) (rec : object).
Variables accs forms dates reports : list json.
Hypothesis Haccs : obj_lookup "accessionNumber" rec = Some (JArr accs).
Hypothesis Hforms : obj_lookup "form" rec = Some (JArr forms).
Hypothesis Hdates : obj_lookup "filingDate" rec = Some (JArr dates).
Hypothesis Hreports : obj_lookup "reportDate" rec = Some (JArr reports).

Lemma submission_step_in_range (i : nat) (all_sub : list SubRow) :
  i < length accs → i < length forms → i < length dates → i < length reports →
  submission_step cik t company (JObj rec) i all_sub =
  Ok (all_sub ++ [submission_row cik t company accs forms dates reports i]).
Proof.
  intros Ha Hf Hd Hr. unfold submission_step, rec_at, submission_row. simpl.
  rewrite Haccs, Hforms, Hdates, Hreports. simpl.
  destruct (lookup_lt_is_Some_2 accs i Ha) as [a Hia].
  destruct (lookup_lt_is_Some_2 forms i Hf) as [f Hif].
  destruct (lookup_lt_is_Some_2 dates i Hd) as [d Hid].
  destruct (lookup_lt_is_Some_2 reports i Hr) as [p Hip].
  rewrite Hia, Hif, Hid, Hip. simpl.
  by rewrite (list_lookup_total_correct _ _ _ Hia), (list_lookup_total_correct _ _ _ Hif),
    (list_lookup_total_correct _ _ _ Hid), (list_lookup_total_correct _ _ _ Hip).
Qed.

Lemma submission_loop_in_range (n : nat) (all_sub : list SubRow) :
  n ≤ length accs → n ≤ length forms → n ≤ length dates → n ≤ length reports →
  for_each (seq 0 n) (submission_step cik t company (JObj rec)) all_sub =
  Ok (all_sub ++ map (submission_row cik t company accs forms dates reports) (seq 0 n)).
Proof.
  intros Ha Hf Hd Hr.
  rewrite (for_each_appends
             (λ i, [submission_row cik t company accs forms dates reports i])).
  - by rewrite flat_map_singleton.
  - intros i Hi%elem_of_seq all_sub'. apply submission_step_in_range; lia.
Qed.

Lemma submission_step_short (i : nat) (all_sub : list SubRow) :
  i < length accs →
  length forms ≤ i ∨ length dates ≤ i ∨ length reports ≤ i →
  submission_step cik t company (JObj rec) i all_sub = Raise IndexError.
Proof.
  intros Ha Hshort. unfold submission_step, rec_at. simpl.
  rewrite Haccs, Hforms, Hdates, Hreports. simpl.
  destruct (lookup_lt_is_Some_2 accs i Ha) as [a ->]. simpl.
  destruct (forms !! i) as [f|] eqn:Hf; simpl; [|done].
  destruct (dates !! i) as [d|] eqn:Hd; simpl; [|done].
  destruct (reports !! i) as [p|] eqn:Hp; simpl; [|done].
  apply lookup_lt_Some in Hf, Hd, Hp. lia.
Qed.
End flatten.

Lemma flatten_submissions_recent (cik t : string) (top filings rec : object)
    (accs : list json) (all_sub : list SubRow) :
  obj_lookup "filings" top = Some (JObj filings) →
  obj_lookup "recent" filings = Some (JObj rec) →
  obj_lookup "accessionNumber" rec = Some (JArr accs) →
  flatten_submissions cik t (JObj top) all_sub =
  for_each (seq 0 (length accs))
    (submission_step cik t (default (JStr "") (obj_lookup "companyName" top)) (JObj rec))
    all_sub.
Proof.
  intros Hfilings Hrecent Haccs. unfold flatten_submissions. simpl.
  rewrite Hfilings. simpl. rewrite Hrecent. simpl. by rewrite Haccs.
Qed.

(** X8: when the four parallel values of the recent-filings block are
    lists and none is shorter than [accessionNumber], the flattening adds,
    behind the rows it was given, one row per accession number, in order,
    the row of index [i] holding the [i]-th element of each list with the
    padded identifier, the ticker and the company name (the empty string
    when the document has none); what the other lists hold beyond the
    length of [accessionNumber] is ignored. *)
Theorem flatten_submissions_zip (cik t : string) (top filings rec : object)
    (accs forms dates reports : list json) (all_sub : list SubRow) :
  obj_lookup "filings" top = Some (JObj filings) →
  obj_lookup "recent" filings = Some (JObj rec) →
  obj_lookup "accessionNumber" rec = Some (JArr accs) →
  obj_lookup "form" rec = Some (JArr forms) →
  obj_lookup "filingDate" rec = Some (JArr dates) →
  obj_lookup "reportDate" rec = Some (JArr reports) →
  length accs ≤ length forms →
  length accs ≤ length dates →
  length accs ≤ length reports →
  ∃ rows,
    flatten_submissions cik t (JObj top) all_sub = Ok (all_sub ++ rows) ∧
    length rows = length accs ∧
    ∀ i a, accs !! i = Some a →
      ∃ f d p,
        forms !! i = Some f ∧ dates !! i = Some d ∧ reports !! i = Some p ∧
        rows !! i =
          Some (mkSubRow (zfill 10 cik) t
                  (default (JStr "") (obj_lookup "companyName" top)) a f d p).
Proof.
  intros Hfilings Hrecent Haccs Hforms Hdates Hreports Hf Hd Hr.
  set (company := default (JStr "") (obj_lookup "companyName" top)).
  exists (map (submission_row cik t company accs forms dates reports)
            (seq 0 (length accs))).
  split; [|split].
  - rewrite (flatten_submissions_recent _ _ _ _ _ _ _ Hfilings Hrecent Haccs).
    by apply submission_loop_in_range.
  - by rewrite length_map, length_seq.
  - intros i a Hia. pose proof (lookup_lt_Some _ _ _ Hia) as Hi.
    destruct (lookup_lt_is_Some_2 forms i ltac:(lia)) as [f Hif].
    destruct (lookup_lt_is_Some_2 dates i ltac:(lia)) as [d Hid].
    destruct (lookup_lt_is_Some_2 reports i ltac:(lia)) as [p Hip].
    exists f, d, p. split; [done|]. split; [done|]. split; [done|].
    rewrite list_lookup_fmap, lookup_seq_lt by done. simpl.
    unfold submission_row.
    by rewrite (list_lookup_total_correct _ _ _ Hia), (list_lookup_total_correct _ _ _ Hif),
      (list_lookup_total_correct _ _ _ Hid), (list_lookup_total_correct _ _ _ Hip).
Qed.

Lemma flatten_submissions_zip_witness :
  ∃ rows,
    flatten_submissions "0000320193" "AAPL" recent_filings [] = Ok ([] ++ rows) ∧
    length rows = 2.
Proof.
  destruct (flatten_submissions_zip "0000320193" "AAPL"
              [("companyName", JStr "Apple Inc.");
               ("filings", JObj [("recent", JObj [
                  ("accessionNumber", JArr [JStr "0000320193-24-000001"; JStr "0000320193-24-000002"]);
                  ("form", JArr [JStr "10-K"; JStr "10-Q"]);
                  ("filingDate", JArr [JStr "2024-01-02"; JStr "2024-04-02"]);
                  ("reportDate", JArr [JStr "2023-12-31"; JStr "2024-03-31"])])])]
              _ _ _ _ _ _ [] eq_refl eq_refl eq_refl eq_refl eq_refl eq_refl)
    as (rows & Hrows & Hlen & _); [simpl; lia..|].
  exists rows. split; [exact Hrows | exact Hlen].
Defined.

(** X9: when the four parallel values are lists and one of [form],
    [filingDate], [reportDate] is shorter than [accessionNumber], the
    flattening raises [IndexError] and returns no row, not even those of
    the indices all lists have. *)
Theorem flatten_submissions_short_list (cik t : string) (top filings rec : object)
    (accs forms dates reports : list json) (all_sub : list SubRow) :
  obj_lookup "filings" top = Some (JObj filings) →
  obj_lookup "recent" filings = Some (JObj rec) →
  obj_lookup "accessionNumber" rec = Some (JArr accs) →
  obj_lookup "form" rec = Some (JArr forms) →
  obj_lookup "filingDate" rec = Some (JArr dates) →
  obj_lookup "reportDate" rec = Some (JArr reports) →
  length forms < length accs ∨ length dates < length accs ∨
    length reports < length accs →
  flatten_submissions cik t (JObj top) all_sub = Raise IndexError.
Proof.
  intros Hfilings Hrecent Haccs Hforms Hdates Hreports Hshort.
  rewrite (flatten_submissions_recent _ _ _ _ _ _ _ Hfilings Hrecent Haccs).
  set (m := Nat.min (length forms) (Nat.min (length dates) (length reports))).
  assert (m < length accs) as Hm by lia.
  replace (length accs) with (m + S (length accs - S m)) by lia.
  rewrite seq_app, for_each_app. cbn [seq].
  rewrite (submission_loop_in_range cik t _ rec accs forms dates reports
             Haccs Hforms Hdates Hreports m) by lia.
  simpl.
  rewrite (submission_step_short cik t _ rec accs forms dates reports
             Haccs Hforms Hdates Hreports m) by lia.
  done.
Qed.

Lemma flatten_submissions_short_list_witness :
  flatten_submissions "0000320193" "AAPL" short_report_dates [] = Raise IndexError.
Proof.
  eapply (flatten_submissions_short_list "0000320193" "AAPL"); try reflexivity.
  right. right. simpl. lia.
Defined.

(** X10: when [accessionNumber] is a non-empty list and one of [form],
    [filingDate], [reportDate] is missing, those before it being non-empty
    lists, the flattening raises [KeyError]. *)
Theorem flatten_submissions_missing_list (cik t : string) (top filings rec : object)
    (a : json) (accs : list json) (all_sub : list SubRow) :
  obj_lookup "filings" top = Some (JObj filings) →
  obj_lookup "recent" filings = Some (JObj rec) →
  obj_lookup "accessionNumber" rec = Some (JArr (a :: accs)) →
  obj_lookup "form" rec = None ∨
  (∃ f forms, obj_lookup "form" rec = Some (JArr (f :: forms))) ∧
    (obj_lookup "filingDate" rec = None ∨
     (∃ d dates, obj_lookup "filingDate" rec = Some (JArr (d :: dates))) ∧
       obj_lookup "reportDate" rec = None) →
  flatten_submissions cik t (JObj top) all_sub = Raise KeyError.
Proof.
  intros Hfilings Hrecent Haccs Hmissing.
  rewrite (flatten_submissions_recent _ _ _ _ _ _ _ Hfilings Hrecent Haccs).
  cbn [length seq]. rewrite for_each_cons.
  unfold submission_step, rec_at. simpl. rewrite Haccs. simpl.
  destruct Hmissing as [-> | [(f & forms & ->) Hmissing]]; [done|]. simpl.
  destruct Hmissing as [-> | [(d & dates & ->) ->]]; done.
Qed.

Lemma flatten_submissions_missing_list_witness :
  flatten_submissions "0000320193" "AAPL" no_filing_dates [] = Raise KeyError.
Proof.
  eapply (flatten_submissions_missing_list "0000320193" "AAPL"); try reflexivity.
  right. split; [by eexists _, _|]. left. reflexivity.
Defined.

(** ** The text of the file *)

(** X11: writing two lists of rows one after the other gives the text of
    the first followed by the text of the second. *)
Theorem write_ndjson_app (rows rows' : list json) :
  write_ndjson (rows ++ rows') = write_ndjson rows +:+ write_ndjson rows'.
Proof.
  induction rows as [|r rows IH]; [done|].
  rewrite <- app_comm_cons, !write_ndjson_cons, IH.
  by rewrite append_assoc, append_cons.
Qed.

Lemma all_chars_app (p : ascii → bool) (a b : string) :
  all_chars p (a +:+ b) = all_chars p a && all_chars p b.
Proof.
  unfold all_chars. induction a as [|c a IH]; [done|].
  rewrite append_cons. cbn [list_ascii_of_string forallb].
  by rewrite IH, andb_assoc.
Qed.

Lemma all_chars_impl (p q : ascii → bool) (s : string) :
  (∀ c, p c = true → q c = true) → all_chars p s = true → all_chars q s = true.
Proof.
  intros Hpq. unfold all_chars. rewrite !forallb_forall. auto.
Qed.

Lemma json_escape_char_printable (c : ascii) :
  all_chars printable (json_escape_char c) = true.
Proof. by destruct c as [[] [] [] [] [] [] [] []]. Qed.

Lemma json_quote_printable (s : string) : all_chars printable (json_quote s) = true.
Proof.
  unfold json_quote.
  change (String double_quote (json_escape s +:+ String double_quote ""))
    with (String double_quote "" +:+ json_escape s +:+ String double_quote "").
  rewrite !all_chars_app.
  assert (all_chars printable (json_escape s) = true) as ->; [|done].
  induction s as [|c s IH]; [done|]. cbn [json_escape].
  by rewrite all_chars_app, json_escape_char_printable, IH.
Qed.

Lemma number_char_printable (c : ascii) : number_char c = true → printable c = true.
Proof. destruct c as [[] [] [] [] [] [] [] []]; vm_compute; congruence. Qed.

Lemma float_char_printable (c : ascii) : float_char c = true → printable c = true.
Proof. destruct c as [[] [] [] [] [] [] [] []]; vm_compute; congruence. Qed.

Lemma int_str_printable (n : Z) : all_chars printable (int_str n) = true.
Proof.
  apply (all_chars_impl number_char); [apply number_char_printable|].
  apply int_str_number_chars.
Qed.

Lemma json_float_printable (r : string) :
  float_text r = true → all_chars printable (json_float r) = true.
Proof.
  intros Hr. unfold json_float.
  repeat (destruct (String.eqb r _); [done|]).
  by apply (all_chars_impl float_char); [apply float_char_printable|].
Qed.

Lemma join_comma_printable (parts : list string) :
  Forall (λ p, all_chars printable p = true) parts →
  all_chars printable (join_comma parts) = true.
Proof.
  induction 1 as [|p parts Hp Hparts IH]; [done|].
  destruct parts as [|q parts]; [done|].
  change (join_comma (p :: q :: parts)) with (p +:+ ", " +:+ join_comma (q :: parts)).
  by rewrite !all_chars_app, Hp, IH.
Qed.

Lemma json_dumps_printable (v : json) :
  json_wf v = true → all_chars printable (json_dumps v) = true.
Proof.
  induction v as [|b|n|r|s|xs IH|items IH] using json_nested_ind;
    cbn [json_dumps json_wf]; intros Hwf.
  - done.
  - by destruct b.
  - apply int_str_printable.
  - by apply json_float_printable.
  - apply json_quote_printable.
  - rewrite !all_chars_app, join_comma_printable; [done|].
    apply Forall_fmap, Forall_forall. intros x Hx.
    rewrite Forall_forall in IH. apply (IH x Hx).
    by apply (forallb_elem_of _ _ _ Hwf).
  - rewrite !all_chars_app, join_comma_printable; [done|].
    apply Forall_fmap, Forall_forall. intros [k x] Hx. simpl.
    rewrite !all_chars_app, json_quote_printable.
    rewrite Forall_forall in IH. pose proof (IH (k, x) Hx) as IHx. simpl in IHx.
    rewrite IHx; [done|].
    apply (forallb_elem_of _ _ (k, x) Hwf Hx).
Qed.

(** X12: the file holds printable ASCII characters and the newlines that
    end its lines, nothing else: whatever control or non-ASCII characters
    the rows hold are written as escapes. *)
Theorem write_ndjson_ascii (rows : list json) :
  Forall (λ r, json_wf r = true) rows →
  all_chars (λ c, printable c || Ascii.eqb c newline) (write_ndjson rows) = true.
Proof.
  induction 1 as [|r rows Hr Hrows IH]; [done|].
  rewrite write_ndjson_cons.
  change (String newline (write_ndjson rows))
    with (String newline "" +:+ write_ndjson rows).
  rewrite !all_chars_app, IH.
  change (all_chars (λ c, printable c || Ascii.eqb c newline) (String newline ""))
    with true.
  rewrite !andb_true_r.
  apply (all_chars_impl printable); [by intros c ->|].
  by apply json_dumps_printable.
Qed.

Lemma write_ndjson_ascii_witness :
  all_chars (λ c, printable c || Ascii.eqb c newline) (write_ndjson sample_rows) = true.
Proof. apply (write_ndjson_ascii sample_rows). repeat constructor. Defined.

Lemma json_canonical_wf (v : json) : json_canonical v = true → json_wf v = true.
Proof.
  induction v as [|b|n|r|s|xs IH|items IH] using json_nested_ind;
    cbn [json_canonical json_wf]; try done.
  - unfold float_canonical. intros [[Hchars _]%andb_true_iff _]%andb_true_iff.
    unfold float_text. rewrite forallb_forall in *.
    intros c Hc. by apply number_char_float_char, Hchars.
  - rewrite !forallb_forall. intros Hxs x Hx. rewrite Forall_forall in IH.
    apply (IH x); [by apply list_elem_of_In | by apply Hxs].
  - rewrite !forallb_forall. intros Hitems [k x] Hx. rewrite Forall_forall in IH.
    apply (IH (k, x)); [by apply list_elem_of_In | by apply (Hitems (k, x))].
Qed.

Lemma json_dumps_inj (v v' : json) :
  json_canonical v = true → json_canonical v' = true →
  json_dumps v = json_dumps v' → v = v'.
Proof.
  intros Hv%json_canonical_repr Hv'%json_canonical_repr Hsame.
  apply json_loads_dumps in Hv, Hv'. rewrite Hsame, Hv' in Hv. by injection Hv.
Qed.

(** X13: the file determines the rows: two different lists of rows whose
    floats are finite are written as different texts. *)
Theorem write_ndjson_injective (rows rows' : list json) :
  Forall (λ r, json_canonical r = true) rows →
  Forall (λ r, json_canonical r = true) rows' →
  rows ≠ rows' →
  write_ndjson rows ≠ write_ndjson rows'.
Proof.
  intros Hrows Hrows' Hdiff Hsame. apply Hdiff. clear Hdiff.
  assert (map json_dumps rows = map json_dumps rows') as Hlines.
  { rewrite <- !split_lines_write_ndjson, Hsame; [done|..];
      (eapply Forall_impl; [eassumption|]); intros r; apply json_canonical_wf. }
  clear Hsame. revert rows' Hrows' Hlines.
  induction Hrows as [|r rows Hr Hrows IH]; intros [|r' rows'] Hrows' Hlines;
    try done.
  apply Forall_cons in Hrows' as [Hr' Hrows']. injection Hlines as Hline Hlines.
  f_equal; [by apply json_dumps_inj | by apply IH].
Qed.

Lemma write_ndjson_injective_witness :
  write_ndjson [JObj [("val", JInt 1)]] ≠ write_ndjson [JObj [("val", JFloat "1.0")]].
Proof.
  apply (write_ndjson_injective [JObj [("val", JInt 1)]] [JObj [("val", JFloat "1.0")]]);
    [repeat constructor | repeat constructor | discriminate].
Defined.

(** ** The configured tickers *)

Lemma split_on_length (sep : ascii) (cur s : string) :
  length (split_on sep cur s) = S (count_char sep s).
Proof.
  revert cur. induction s as [|c s IH]; intros cur; [done|].
  cbn [split_on count_char]. destruct (Ascii.eqb c sep); simpl; by rewrite IH.
Qed.

Lemma split_on_pieces (sep : ascii) (cur s piece : string) :
  has_char sep cur = false →
  piece ∈ split_on sep cur s →
  has_char sep piece = false.
Proof.
  revert cur. induction s as [|c s IH]; intros cur Hcur.
  - by intros ->%list_elem_of_singleton.
  - cbn [split_on]. destruct (Ascii.eqb_spec c sep) as [->|Hc].
    + intros [->|Hpiece]%elem_of_cons; [done|]. by apply (IH "").
    + apply IH. rewrite has_char_app, Hcur. unfold has_char. simpl.
      rewrite orb_false_r. apply Ascii.eqb_neq. congruence.
Qed.

Lemma lstrip_suffix (c : ascii) (s : string) :
  has_char c (lstrip s) = true → has_char c s = true.
Proof.
  unfold has_char. induction s as [|x s IH]; [done|]. simpl.
  destruct (is_space x); [|done]. intros Hc. by rewrite IH, orb_true_r.
Qed.

Lemma rstrip_prefix (c : ascii) (s : string) :
  has_char c (rstrip s) = true → has_char c s = true.
Proof.
  unfold has_char. induction s as [|x s IH]; [done|]. cbn [rstrip].
  destruct (rstrip s) as [|y r].
  - destruct (is_space x); [done|]. simpl. rewrite orb_false_r. by intros ->.
  - cbn [list_ascii_of_string existsb] in *.
    intros [->|Hc]%orb_true_iff; [done|]. by rewrite IH, orb_true_r.
Qed.

Lemma ascii_upper_comma (c : ascii) :
  Ascii.eqb "," (ascii_upper c) = Ascii.eqb "," c.
Proof. by destruct c as [[] [] [] [] [] [] [] []]. Qed.

Lemma upper_comma (s : string) : has_char "," (upper s) = has_char "," s.
Proof.
  unfold has_char. induction s as [|c s IH]; [done|].
  cbn [upper list_ascii_of_string existsb].
  by rewrite ascii_upper_comma, IH.
Qed.

Lemma is_space_upper (c : ascii) : is_space (ascii_upper c) = is_space c.
Proof. by destruct c as [[] [] [] [] [] [] [] []]. Qed.

Lemma lstrip_upper (s : string) : lstrip (upper s) = upper (lstrip s).
Proof.
  induction s as [|c s IH]; [done|]. simpl. rewrite is_space_upper.
  by destruct (is_space c).
Qed.

Lemma rstrip_upper (s : string) : rstrip (upper s) = upper (rstrip s).
Proof.
  induction s as [|c s IH]; [done|]. simpl. rewrite IH, is_space_upper.
  destruct (rstrip s); simpl; [by destruct (is_space c) | done].
Qed.

Lemma strip_upper (s : string) : strip (upper s) = upper (strip s).
Proof. unfold strip. by rewrite lstrip_upper, rstrip_upper. Qed.

Lemma rstrip_idemp (s : string) : rstrip (rstrip s) = rstrip s.
Proof.
  induction s as [|c s IH]; [done|]. cbn [rstrip].
  destruct (rstrip s) as [|y r] eqn:Hr.
  - destruct (is_space c) eqn:Hc; [done|]. simpl. by rewrite Hc.
  - cbn [rstrip]. cbn [rstrip] in IH. by rewrite IH.
Qed.

(** A text that does not start with a space still does not after
    [rstrip]. *)
Lemma lstrip_rstrip (s : string) : lstrip s = s → lstrip (rstrip s) = rstrip s.
Proof.
  destruct s as [|c s]; [done|]. cbn [lstrip].
  destruct (is_space c) eqn:Hc.
  - intros Hs. exfalso.
    assert (∀ t, String.length (lstrip t) ≤ String.length t) as Hlen.
    { induction t as [|x t IHt]; [done|]. simpl. destruct (is_space x); simpl; lia. }
    pose proof (Hlen s) as Hle. rewrite Hs in Hle. simpl in Hle. lia.
  - intros _. cbn [rstrip]. destruct (rstrip s); [rewrite Hc|]; simpl; by rewrite Hc.
Qed.

Lemma lstrip_idemp (s : string) : lstrip (lstrip s) = lstrip s.
Proof.
  induction s as [|c s IH]; [done|]. simpl.
  destruct (is_space c) eqn:Hc; [done|]. simpl. by rewrite Hc.
Qed.

Lemma strip_idemp (s : string) : strip (strip s) = strip s.
Proof.
  unfold strip. rewrite (lstrip_rstrip (lstrip s)) by apply lstrip_idemp.
  apply rstrip_idemp.
Qed.

(** X14: the list of configured tickers is never empty: it has one ticker
    more than the setting has commas, so an empty setting gives one empty
    ticker.  Every ticker is free of commas and in the form the script
    gives it: stripping or upper-casing it again changes nothing. *)
Theorem parse_tickers_normal (env : option string) :
  length (parse_tickers env) = S (count_char "," (default "AAPL,MSFT" env)) ∧
  ∀ t, t ∈ parse_tickers env →
    has_char "," t = false ∧ strip t = t ∧ upper t = t.
Proof.
  unfold parse_tickers. split.
  - by rewrite length_map, split_on_length.
  - intros t (piece & -> & Hpiece)%list_elem_of_fmap.
    apply split_on_pieces in Hpiece; [|done].
    split; [|split].
    + rewrite upper_comma. destruct (has_char "," (strip piece)) eqn:Hc; [|done].
      apply rstrip_prefix, lstrip_suffix in Hc. congruence.
    + by rewrite strip_upper, strip_idemp.
    + apply upper_idemp.
Qed.

(** ** The run *)


(** A loop whose body only appends does the same from any start. *)
Lemma for_each_from_nil {A B : Type} (xs : list A)
    (body : A → list B → result (list B)) (s : list B) :
  (∀ x t, body x t = r ← body x []; Ok (t ++ r)) →
  for_each xs body s = r ← for_each xs body []; Ok (s ++ r).
Proof.
  intros Hbody. revert s. induction xs as [|x xs IH]; intros s.
  - simpl. by rewrite app_nil_r.
  - rewrite !for_each_cons, (Hbody x s).
    destruct (body x []) as [r|e]; simpl; [|done].
    rewrite (IH (s ++ r)), (IH r).
    destruct (for_each xs body []) as [r'|e]; simpl; [|done].
    by rewrite app_assoc.
Qed.

Lemma submission_step_from_nil (cik t : string) (company rec : json) (i : nat)
    (all_sub : list SubRow) :
  submission_step cik t company rec i all_sub =
  r ← submission_step cik t company rec i []; Ok (all_sub ++ r).
Proof.
  unfold submission_step.
  destruct (rec_at rec "accessionNumber" i); simpl; [|done].
  destruct (rec_at rec "form" i); simpl; [|done].
  destruct (rec_at rec "filingDate" i); simpl; [|done].
  by destruct (rec_at rec "reportDate" i).
Qed.

Lemma flatten_submissions_from_nil (cik t : string) (subs : json)
    (all_sub : list SubRow) :
  flatten_submissions cik t subs all_sub =
  r ← flatten_submissions cik t subs []; Ok (all_sub ++ r).
Proof.
  unfold flatten_submissions.
  destruct (py_get_default subs "companyName" (JStr "")) as [company|]; simpl; [|done].
  destruct (py_get_default subs "filings" (JObj [])) as [filings|]; simpl; [|done].
  destruct (py_get_default filings "recent" (JObj [])) as [rec|]; simpl; [|done].
  destruct (py_get_default rec "accessionNumber" (JArr [])) as [accs|]; simpl; [|done].
  destruct (py_len accs) as [n|]; simpl; [|done].
  apply for_each_from_nil. intros i acc. apply submission_step_from_nil.
Qed.

Lemma company_step_finished (fetch : string → option json) (item : string * string)
    (cf : list Row) (sub : list SubRow) (acc : list Row * list SubRow) :
  zfill 10 item.2 = item.2 →
  company_step fetch item (cf, sub) = Finished acc ↔
  ∃ out, company_ok fetch item out ∧ acc = (cf ++ out.1, sub ++ out.2).
Proof.
  destruct item as [t cik]. cbn [fst snd]. intros Hcik.
  unfold company_step, company_ok, fetch_json. cbn [fst snd]. rewrite Hcik.
  destruct (fetch (submissions_url cik)) as [subs|]; simpl.
  2: { split; [done|]. by intros (out & (? & ? & ? & _) & _). }
  destruct (fetch (companyfacts_url cik)) as [facts|]; simpl.
  2: { split; [done|]. by intros (out & (? & ? & _ & ? & _) & _). }
  rewrite flatten_submissions_from_nil.
  destruct (flatten_submissions cik t subs []) as [rows|e] eqn:Hrows; simpl.
  2: { split; [done|].
       intros (out & (? & ? & [= <-] & [= <-] & ? & _) & _). congruence. }
  destruct (normalize_companyfacts cik t facts) as [cf_rows|e] eqn:Hcf; simpl.
  2: { split; [done|].
       intros (out & (? & ? & [= <-] & [= <-] & _ & ?) & _). congruence. }
  split.
  - intros [= <-]. exists (cf_rows, rows). split; [|done]. by exists subs, facts.
  - intros ([cf_rows' rows'] & (? & ? & [= <-] & [= <-] & Hrows' & Hcf') & ->).
    cbn [fst snd] in *. congruence.
Qed.

Lemma run_each_companies (fetch : string → option json) (pairs : list (string * string))
    (cf : list Row) (sub : list SubRow) (acc : list Row * list SubRow) :
  Forall (λ item, zfill 10 item.2 = item.2) pairs →
  run_each pairs (company_step fetch) (cf, sub) = Finished acc ↔
  ∃ outs, Forall2 (company_ok fetch) pairs outs ∧
          acc = (cf ++ concat (map fst outs), sub ++ concat (map snd outs)).
Proof.
  intros Hpairs. revert cf sub acc.
  induction Hpairs as [|item pairs Hitem Hpairs IH]; intros cf sub acc.
  - simpl. split.
    + intros [= <-]. exists []. split; [constructor|]. simpl. by rewrite !app_nil_r.
    + intros (outs & ->%Forall2_nil_inv_l & ->). simpl. by rewrite !app_nil_r.
  - cbn [run_each]. split.
    + destruct (company_step fetch item (cf, sub)) as [[cf1 sub1]|f] eqn:Hstep;
        simpl; [|done]. intros Hrest.
      apply company_step_finished in Hstep as (out & Hout & [= -> ->]); [|done].
      apply IH in Hrest as (outs & Houts & ->).
      exists (out :: outs). split; [by constructor|]. simpl.
      by rewrite !app_assoc.
    + intros (outs & Houts & ->).
      apply Forall2_cons_inv_l in Houts as (out & outs' & Hout & Houts & ->).
      assert (company_step fetch item (cf, sub) = Finished (cf ++ out.1, sub ++ out.2))
        as ->.
      { apply company_step_finished; [done|]. by exists out. }
      simpl. apply IH. exists outs'. split; [done|]. by rewrite !app_assoc.
Qed.

Lemma chosen_pairs_padded (data : json) (t2c : gmap string string)
    (TICKERS : list string) :
  get_ticker_cik_map data = Ok t2c →
  Forall (λ item, zfill 10 item.2 = item.2) (chosen_pairs TICKERS t2c).
Proof.
  intros Hmap.
  assert (map_Forall (λ _ v, 10 ≤ String.length v) t2c) as Hall.
  { apply (get_ticker_cik_map_forall _ data); [|done].
    intros t s. rewrite zfill_length. lia. }
  apply Forall_forall. intros [t cik] (t' & Ht' & Hcik)%list_elem_of_omap.
  destruct (t2c !! t') as [cik'|] eqn:Hlookup; [|done]. injection Hcik as <- <-.
  cbn [snd]. apply zfill_wide. by apply (Hall t').
Qed.

Lemma main_rows_finished (BUCKET : option string) (TICKERS : list string)
    (fetch : string → option json) (bucket : string) (rows : list Row * list SubRow) :
  main_rows BUCKET TICKERS fetch = Finished (bucket, rows) ↔
  ∃ data t2c outs,
    BUCKET = Some bucket ∧ bucket ≠ "" ∧
    fetch tickers_url = Some data ∧
    get_ticker_cik_map data = Ok t2c ∧
    Forall2 (company_ok fetch) (chosen_pairs TICKERS t2c) outs ∧
    rows = (concat (map fst outs), concat (map snd outs)).
Proof.
  unfold main_rows, fetch_json. destruct BUCKET as [bucket'|].
  2: { split; [done|]. by intros (? & ? & ? & ? & _). }
  destruct (String.eqb_spec bucket' "") as [->|Hbucket].
  { split; [done|]. by intros (? & ? & ? & [= <-] & ? & _). }
  destruct (fetch tickers_url) as [data|]; simpl.
  2: { split; [done|]. by intros (? & ? & ? & _ & _ & ? & _). }
  destruct (get_ticker_cik_map data) as [t2c|e] eqn:Hmap; simpl.
  2: { split; [done|]. intros (? & ? & ? & _ & _ & [= <-] & ? & _). congruence. }
  rewrite chosen_present. simpl. fold (chosen_pairs TICKERS t2c).
  pose proof (chosen_pairs_padded data t2c TICKERS Hmap) as Hpadded.
  split.
  - destruct (run_each _ _ _) as [rows'|f] eqn:Hloop; simpl; [|done].
    intros [= <- <-].
    apply run_each_companies in Hloop as (outs & Houts & ->); [|done].
    by exists data, t2c, outs.
  - intros (? & t2c' & outs & [= <-] & _ & [= <-] & Hmap' & Houts & ->).
    assert (t2c' = t2c) as -> by congruence.
    assert (run_each (chosen_pairs TICKERS t2c) (company_step fetch) ([], []) =
            Finished (concat (map fst outs), concat (map snd outs))) as ->.
    { apply run_each_companies; [done|]. by exists outs. }
    done.
Qed.

(** X15: when the bucket is set, the table (of ASCII tickers) is fetched
    and resolves, both documents of every configured company of the table
    are fetched and processed without an exception, both local files can
    be written and both uploads succeed, the run ends without a failure
    after two uploads to the bucket: the fact rows of all these companies
    under [raw/<date>/companyfacts.ndjson], then their submission rows
    under [raw/<date>/submissions.ndjson], company after company in the
    configured order, each with the identifier of the table. *)
Theorem main_uploads (bucket : string) (TICKERS : list string) (date : string)
    (fetch : string → option json) (disk : string → bool) (gcs : Upload → bool)
    (data : json) (t2c : gmap string string) (outs : list (list Row * list SubRow)) :
  bucket ≠ "" →
  fetch tickers_url = Some data →
  ascii_table data = true →
  get_ticker_cik_map data = Ok t2c →
  Forall2 (company_ok fetch) (chosen_pairs TICKERS t2c) outs →
  disk (companyfacts_path date) = true →
  disk (submissions_path date) = true →
  Forall (λ u, gcs u = true) (uploads_of bucket date outs) →
  main (Some bucket) TICKERS date fetch disk gcs =
  mkOutcome (uploads_of bucket date outs) None.
Proof.
  intros Hbucket Hdata _ Hmap Houts Hfacts Hsubs Hgcs. unfold main.
  assert (main_rows (Some bucket) TICKERS fetch =
          Finished (bucket, (concat (map fst outs), concat (map snd outs)))) as ->.
  { apply main_rows_finished. by exists data, t2c, outs. }
  apply Forall_cons in Hgcs as [Hup1 Hgcs]. apply Forall_cons in Hgcs as [Hup2 _].
  cbv zeta. by rewrite Hfacts, Hsubs, Hup1, Hup2.
Qed.

Lemma main_uploads_witness :
  main (Some "edgar-raw") ["AAPL"; "TSLA"] "20240102" sample_fetch writable accepting =
  mkOutcome (uploads_of "edgar-raw" "20240102" sample_outs) None.
Proof.
  apply (main_uploads "edgar-raw" ["AAPL"; "TSLA"] "20240102" sample_fetch
           writable accepting mock_response
           (<["MSFT" := "0000789019"]> (<["AAPL" := "0000320193"]> ∅)));
    try reflexivity; [discriminate | | repeat constructor].
  repeat constructor. exists recent_filings, facts_data.
  repeat split; reflexivity.
Defined.

(** X16: a file that reaches the bucket is whole.  If a run uploads
    anything, then the bucket was set, the table (of ASCII tickers) was
    fetched and resolved, both documents of every configured company of
    the table were fetched and processed without an exception, and both
    local files were written; what is in the bucket is then either the
    two files with the rows of all these companies, the run ending
    without a failure, or the facts file alone, when the upload of the
    submissions file failed.  A failure at any earlier point, in one
    company or in the table, leaves the bucket without any row. *)
Theorem main_uploads_whole_files (BUCKET : option string) (TICKERS : list string)
    (date : string) (fetch : string → option json) (disk : string → bool)
    (gcs : Upload → bool) :
  (∀ data, fetch tickers_url = Some data → ascii_table data = true) →
  uploaded (main BUCKET TICKERS date fetch disk gcs) ≠ [] →
  ∃ bucket data t2c outs,
    BUCKET = Some bucket ∧ bucket ≠ "" ∧
    fetch tickers_url = Some data ∧
    get_ticker_cik_map data = Ok t2c ∧
    Forall2 (company_ok fetch) (chosen_pairs TICKERS t2c) outs ∧
    disk (companyfacts_path date) = true ∧
    disk (submissions_path date) = true ∧
    (main BUCKET TICKERS date fetch disk gcs =
       mkOutcome (uploads_of bucket date outs) None ∨
     main BUCKET TICKERS date fetch disk gcs =
       mkOutcome (take 1 (uploads_of bucket date outs))
         (Some (UploadError (submissions_dest date)))).
Proof.
  intros _. unfold main.
  destruct (main_rows BUCKET TICKERS fetch) as [[bucket rows]|f] eqn:Hrows; [|done].
  apply main_rows_finished in Hrows as (data & t2c & outs & -> & Hbucket & Hdata & Hmap & Houts & ->).
  cbv zeta.
  destruct (disk (companyfacts_path date)); [|done].
  destruct (disk (submissions_path date)); [|done].
  cbn [negb].
  destruct (gcs (mkUpload bucket (companyfacts_dest date)
                   (write_ndjson (map row_json (concat (map fst outs)))))); [|done].
  cbn [negb].
  destruct (gcs (mkUpload bucket (submissions_dest date)
                   (write_ndjson (map sub_row_json (concat (map snd outs))))));
    cbn [negb]; intros _;
    exists bucket, data, t2c, outs; repeat (split; [done|]); [by left | by right].
Qed.

Lemma main_uploads_whole_files_witness :
  ∃ bucket data t2c outs,
    Some "edgar-raw" = Some bucket ∧ bucket ≠ "" ∧
    sample_fetch tickers_url = Some data ∧
    get_ticker_cik_map data = Ok t2c ∧
    Forall2 (company_ok sample_fetch) (chosen_pairs ["AAPL"] t2c) outs ∧
    writable (companyfacts_path "20240102") = true ∧
    writable (submissions_path "20240102") = true ∧
    (main (Some "edgar-raw") ["AAPL"] "20240102" sample_fetch writable facts_only =
       mkOutcome (uploads_of bucket "20240102" outs) None ∨
     main (Some "edgar-raw") ["AAPL"] "20240102" sample_fetch writable facts_only =
       mkOutcome (take 1 (uploads_of bucket "20240102" outs))
         (Some (UploadError (submissions_dest "20240102")))).
Proof.
  apply (main_uploads_whole_files (Some "edgar-raw") ["AAPL"] "20240102" sample_fetch
           writable facts_only).
  - by intros data [= <-].
  - discriminate.
Defined.



(** ** Configuration and table together *)

Lemma resolved_is_Some (values : list json) (t2c : gmap string string) (T : string) :
  is_Some (t2c !! T) ∨ (∃ v, v ∈ values ∧ entry_key v = Some T) →
  is_Some (resolved values t2c !! T).
Proof.
  revert t2c. induction values as [|v values IH]; intros t2c.
  - intros [Hhere|(v & Hv%elem_of_nil & _)]; done.
  - change (resolved (v :: values) t2c) with
      (resolved values (match entry_fields v with
                        | Some (t, c) => <[upper t := zfill 10 (py_str c)]> t2c
                        | None => t2c
                        end)).
    intros [Hhere|(v' & [->|Hv']%elem_of_cons & Hkey)]; apply IH.
    + left. destruct (entry_fields v) as [[t c]|]; [|done].
      destruct (decide (upper t = T)) as [->|Hne].
      * rewrite lookup_insert_eq. by eexists.
      * by rewrite lookup_insert_ne.
    + left. unfold entry_key in Hkey.
      destruct (entry_fields v) as [[t c]|]; [|done].
      injection Hkey as <-. cbn [fst]. rewrite lookup_insert_eq. by eexists.
    + right. by exists v'.
Qed.

(** X18: tickers are matched without regard to case or to blanks around
    the configured name: when the [TICKERS] setting and the tickers of the
    table are ASCII text, the table resolves and has an entry whose ticker
    is [tk], and the setting has an item that is [tk] up to case and
    surrounding blanks, the company is among those the run works on,
    under the upper-case ticker and an identifier of the table. *)
Theorem configured_ticker_chosen (env : option string) (items : object)
    (t2c : gmap string string) (x : string) (key : string) (v c : json) (tk : string) :
  ascii_text (default "AAPL,MSFT" env) = true →
  ascii_table (JObj items) = true →
  get_ticker_cik_map (JObj items) = Ok t2c →
  (key, v) ∈ items →
  entry_fields v = Some (tk, c) →
  x ∈ split_on "," "" (default "AAPL,MSFT" env) →
  upper (strip x) = upper tk →
  ∃ cik, t2c !! upper tk = Some cik ∧
         chosen (parse_tickers env) t2c = Ok (chosen_pairs (parse_tickers env) t2c) ∧
         (upper tk, cik) ∈ chosen_pairs (parse_tickers env) t2c.
Proof.
  intros _ _ Hmap Hv Hfields Hx Hmatch.
  assert (t2c = resolved (map snd items) ∅) as Ht2c.
  { unfold get_ticker_cik_map in Hmap. simpl in Hmap.
    rewrite resolver_loop_outcome in Hmap.
    destruct (first_failure entry_failure (map snd items)); [done|].
    by injection Hmap as <-. }
  destruct (resolved_is_Some (map snd items) ∅ (upper tk)) as [cik Hcik].
  { right. exists v. split.
    - apply list_elem_of_fmap. by exists (key, v).
    - unfold entry_key. by rewrite Hfields. }
  rewrite <- Ht2c in Hcik. exists cik. split; [done|].
  split; [apply chosen_present|].
  apply list_elem_of_omap. exists (upper tk). split.
  - unfold parse_tickers. apply list_elem_of_fmap. by exists x.
  - by rewrite Hcik.
Qed.

Lemma configured_ticker_chosen_witness :
  ∃ cik,
    (<["MSFT" := "0000789019"]> (<["AAPL" := "0000320193"]> ∅) : gmap string string)
      !! upper "MSFT" = Some cik ∧
    chosen (parse_tickers (Some "tsla, msft ")) (<["MSFT" := "0000789019"]> (<["AAPL" := "0000320193"]> ∅)) =
    Ok (chosen_pairs (parse_tickers (Some "tsla, msft "))
          (<["MSFT" := "0000789019"]> (<["AAPL" := "0000320193"]> ∅))) ∧
    (upper "MSFT", cik) ∈
      chosen_pairs (parse_tickers (Some "tsla, msft "))
        (<["MSFT" := "0000789019"]> (<["AAPL" := "0000320193"]> ∅)).
Proof.
  apply (configured_ticker_chosen (Some "tsla, msft ")
           [("0", JObj [("cik_str", JInt 320193); ("ticker", JStr "AAPL");
                        ("title", JStr "Apple Inc.")]);
            ("1", JObj [("cik_str", JInt 789019); ("ticker", JStr "MSFT");
                        ("title", JStr "Microsoft Corp")])]
           _ " msft " "1"
           (JObj [("cik_str", JInt 789019); ("ticker", JStr "MSFT");
                  ("title", JStr "Microsoft Corp")])
           (JInt 789019) "MSFT").
  - reflexivity.
  - reflexivity.
  - reflexivity.
  - apply elem_of_cons. right. apply elem_of_cons. by left.
  - reflexivity.
  - apply elem_of_cons. right. apply elem_of_cons. by left.
  - reflexivity.
Defined.
